(** * aare.ai on GCP: the ontology loader and the verification endpoint

    A shallow embedding of [handlers/ontology_loader.py] (class
    [OntologyLoader]) and of [main.py] (functions [get_cors_headers] and
    [verify]), followed by the properties of the specification.

    Conventions of the embedding.
    - Python values that can come out of [json.loads] are the type [pyval];
      a dict is an association list in insertion order.
    - A call that may raise returns a [result]; [Raise e] carries the
      exception, of which only [type(e).__name__] and [str(e)] are kept.
      Only instances of [Exception] are modelled.
    - The text of a stored object is represented by what [json.loads] makes
      of it (type [content]).
    - Mutable state (the [lru_cache] of [load], the requests sent to the
      store, the records passed to [logging]) is threaded explicitly.
    - [main.py] takes its loader, parser and verifier from [aare_core]; the
      handler is embedded over any such three components, which may return
      any value and raise any exception. *)

From Stdlib Require Import String Ascii List ZArith Bool Arith Lia.
From Stdlib Require Import Floats.SpecFloat.
From Stdlib Require Import Sorting.Permutation.
Import ListNotations.
Local Open Scope string_scope.
Local Open Scope list_scope.

(* ================================================================== *)
(** * Python values and exceptions *)
(* ================================================================== *)

#[warnings="-register-all"]
Inductive pyval : Type :=
| PyNone
| PyBool (b : bool)
| PyInt (z : Z)
| PyFloat (f : spec_float)
| PyStr (s : string)
| PyList (items : list pyval)
| PyDict (entries : list (string * pyval)).

(** [type(v).__name__] *)
Definition type_name (v : pyval) : string :=
  match v with
  | PyNone => "NoneType"
  | PyBool _ => "bool"
  | PyInt _ => "int"
  | PyFloat _ => "float"
  | PyStr _ => "str"
  | PyList _ => "list"
  | PyDict _ => "dict"
  end.

(** [bool(v)]: what [if v:] and [not v] look at. *)
Definition truthy (v : pyval) : bool :=
  match v with
  | PyNone => false
  | PyBool b => b
  | PyInt z => negb (z =? 0)%Z
  | PyFloat (S754_zero _) => false
  | PyFloat _ => true
  | PyStr s => negb (s =? "")
  | PyList items => negb (length items =? 0)%nat
  | PyDict entries => negb (length entries =? 0)%nat
  end.

Definition is_str (v : pyval) : bool :=
  match v with PyStr _ => true | _ => false end.

Definition is_dict (v : pyval) : bool :=
  match v with PyDict _ => true | _ => false end.

Record exn : Type := mkExn { exn_type : string; exn_str : string }.

Definition KeyError (key : string) : exn := mkExn "KeyError" ("'" ++ key ++ "'").
Definition TypeError (msg : string) : exn := mkExn "TypeError" msg.
Definition ValueError (msg : string) : exn := mkExn "ValueError" msg.
Definition AttributeError (msg : string) : exn := mkExn "AttributeError" msg.
Definition JSONDecodeError (msg : string) : exn := mkExn "JSONDecodeError" msg.
Definition NotFound (msg : string) : exn := mkExn "NotFound" msg.

(** The test of [except NotFound]. *)
Definition is_NotFound (e : exn) : bool := exn_type e =? "NotFound".

Inductive result (A : Type) : Type :=
| Ok (a : A)
| Raise (e : exn).
Arguments Ok {A} a.
Arguments Raise {A} e.

Definition bind {A B : Type} (c : result A) (k : A -> result B) : result B :=
  match c with
  | Ok a => k a
  | Raise e => Raise e
  end.

Notation "x <- c ;; k" := (bind c (fun x => k))
  (at level 61, c at next level, right associativity).

(* ------------------------------------------------------------------ *)
(** ** Operations on values *)

Fixpoint dict_get (key : string) (entries : list (string * pyval)) : option pyval :=
  match entries with
  | [] => None
  | (k, v) :: rest => if k =? key then Some v else dict_get key rest
  end.

Definition dict_has (key : string) (entries : list (string * pyval)) : bool :=
  match dict_get key entries with Some _ => true | None => false end.

(** [needle in haystack] on Python strings. *)
Definition str_contains (needle haystack : string) : bool :=
  match index 0 needle haystack with Some _ => true | None => false end.

(** [field in v] for a string [field]: key membership on a dict, element
    membership on a list, substring test on a string, [TypeError]
    elsewhere. *)
Definition py_in (field : string) (v : pyval) : result bool :=
  match v with
  | PyDict entries => Ok (dict_has field entries)
  | PyList items =>
      Ok (existsb (fun x => match x with PyStr s => s =? field | _ => false end) items)
  | PyStr s => Ok (str_contains field s)
  | _ => Raise (TypeError ("argument of type '" ++ type_name v ++ "' is not iterable"))
  end.

(** [v[key]] for a string [key]. *)
Definition subscript (v : pyval) (key : string) : result pyval :=
  match v with
  | PyDict entries =>
      match dict_get key entries with
      | Some x => Ok x
      | None => Raise (KeyError key)
      end
  | PyList _ => Raise (TypeError "list indices must be integers or slices, not str")
  | PyStr _ => Raise (TypeError "string indices must be integers, not 'str'")
  | _ => Raise (TypeError ("'" ++ type_name v ++ "' object is not subscriptable"))
  end.

(** [len(v)] *)
Definition py_len (v : pyval) : result Z :=
  match v with
  | PyStr s => Ok (Z.of_nat (String.length s))
  | PyList items => Ok (Z.of_nat (length items))
  | PyDict entries => Ok (Z.of_nat (length entries))
  | _ => Raise (TypeError ("object of type '" ++ type_name v ++ "' has no len()"))
  end.

(** [v.get(key, default)]: only a dict has the method. *)
Definition py_get (v : pyval) (key : string) (default : pyval) : result pyval :=
  match v with
  | PyDict entries =>
      Ok (match dict_get key entries with Some x => x | None => default end)
  | _ => Raise (AttributeError ("'" ++ type_name v ++ "' object has no attribute 'get'"))
  end.

(** [s.endswith(suffix)] *)
Definition endswith (suffix s : string) : bool :=
  (String.length suffix <=? String.length s)%nat &&
  (substring (String.length s - String.length suffix) (String.length suffix) s =? suffix).

(** [s.replace(old, new)] for a non-empty [old]: every occurrence, scanning
    from the left, occurrences never overlapping.  [skip] counts the
    characters of a matched occurrence that are still to be dropped. *)
Fixpoint replace_from (old new : string) (skip : nat) (s : string) : string :=
  match s with
  | EmptyString => EmptyString
  | String c rest =>
      match skip with
      | S k => replace_from old new k rest
      | O =>
          if prefix old s
          then new ++ replace_from old new (String.length old - 1) rest
          else String c (replace_from old new 0 rest)
      end
  end.

Definition replace (old new s : string) : string := replace_from old new 0 s.

(* ================================================================== *)
(** * handlers/ontology_loader.py *)
(* ================================================================== *)

Module OntologyLoader.

(** The text of a stored object, as [json.loads] reads it: the decoded
    value, or the [JSONDecodeError] it raises. *)
Record content : Type := Text { decoded : result pyval }.

Definition json_loads (c : content) : result pyval := decoded c.

(** What iterating [bucket.list_blobs()] does: the object names it yields,
    then possibly an exception (also when the call itself raises). *)
Record blob_iterator : Type :=
  Blobs { yielded : list string; failure : option exn }.

(** Cloud Storage at the time of one call. *)
Record Store : Type := mkStore {
  download_as_text : string -> string -> result content;  (* bucket, object *)
  list_blobs : string -> blob_iterator                    (* bucket *)
}.

(** The attributes of an [OntologyLoader] object. [storage_client] is
    [false] for [None]. *)
Record Self : Type := mkSelf {
  bucket_name : string;
  storage_client : bool
}.

(** [__init__]: [bucket_name or os.environ.get("ONTOLOGY_BUCKET",
    "aare-ai-ontologies")], and a client unless [storage.Client()] raises. *)
Definition init (bucket : option string) (env_ONTOLOGY_BUCKET : option string)
    (client : result unit) : Self :=
  let from_env :=
    match env_ONTOLOGY_BUCKET with Some b => b | None => "aare-ai-ontologies" end in
  mkSelf
    (match bucket with
     | Some b => if b =? "" then from_env else b
     | None => from_env
     end)
    (match client with Ok _ => true | Raise _ => false end).

Inductive level : Type := INFO | WARNING.

(** State across calls: the cache of [load], most recently used first; the
    objects asked of the store, newest first; the log records, newest
    first. *)
Record State : Type := mkState {
  cache : list (string * pyval);
  downloads : list string;
  log : list (level * string)
}.

Definition initial : State := mkState [] [] [].

Definition set_cache (c : list (string * pyval)) (st : State) : State :=
  mkState c (downloads st) (log st).
Definition note_download (object : string) (st : State) : State :=
  mkState (cache st) (object :: downloads st) (log st).
Definition logging (l : level) (msg : string) (st : State) : State :=
  mkState (cache st) (downloads st) ((l, msg) :: log st).

Definition required_fields : list string :=
  ["name"; "version"; "constraints"; "extractors"].

(** The loop of [_validate_ontology]. *)
Fixpoint check_fields (fields : list string) (ontology : pyval) : result unit :=
  match fields with
  | [] => Ok tt
  | field :: rest =>
      present <- py_in field ontology ;;
      if present then check_fields rest ontology
      else Raise (ValueError ("Invalid ontology: missing " ++ field))
  end.

Definition _validate_ontology (ontology : pyval) : result pyval :=
  _ <- check_fields required_fields ontology ;;
  Ok ontology.

Definition variable (name type : string) : pyval :=
  PyDict [("name", PyStr name); ("type", PyStr type)].

Definition constraint (id category description formula_readable : string)
    (variables : list pyval) (error_message citation : string) : pyval :=
  PyDict [("id", PyStr id);
          ("category", PyStr category);
          ("description", PyStr description);
          ("formula_readable", PyStr formula_readable);
          ("variables", PyList variables);
          ("error_message", PyStr error_message);
          ("citation", PyStr citation)].

Definition pattern_extractor (type pattern : string) : pyval :=
  PyDict [("type", PyStr type); ("pattern", PyStr pattern)].

Definition keyword_extractor (keywords : list string) : pyval :=
  PyDict [("type", PyStr "boolean"); ("keywords", PyList (map PyStr keywords))].

Definition _get_default_ontology : pyval :=
  PyDict [
    ("name", PyStr "mortgage-compliance-v1");
    ("version", PyStr "1.0.0");
    ("description", PyStr "U.S. Mortgage Compliance - Core constraints");
    ("constraints", PyList [
      constraint "ATR_QM_DTI" "ATR/QM" "Debt-to-income ratio requirements"
        "(dti ≤ 43) ∨ (compensating_factors ≥ 2)"
        [variable "dti" "real"; variable "compensating_factors" "int"]
        "DTI exceeds 43% without sufficient compensating factors"
        "12 CFR § 1026.43(c)";
      constraint "HOEPA_HIGH_COST" "HOEPA" "High-cost mortgage counseling requirement"
        "(fee_percentage < 8) ∨ counseling_disclosed"
        [variable "fee_percentage" "real"; variable "counseling_disclosed" "bool"]
        "HOEPA triggered - counseling disclosure required"
        "12 CFR § 1026.32";
      constraint "UDAAP_NO_GUARANTEES" "UDAAP" "Prohibition on guarantee language"
        "¬(has_guarantee ∧ has_approval)"
        [variable "has_guarantee" "bool"; variable "has_approval" "bool"]
        "Cannot guarantee approval"
        "12 CFR § 1036.3";
      constraint "HPML_ESCROW" "Escrow" "Escrow requirements based on FICO"
        "(credit_score ≥ 620) ∨ ¬escrow_waived"
        [variable "credit_score" "int"; variable "escrow_waived" "bool"]
        "Cannot waive escrow with FICO < 620"
        "12 CFR § 1026.35(b)";
      constraint "REG_B_ADVERSE" "Regulation B" "Adverse action disclosure requirements"
        "is_denial → has_specific_reason"
        [variable "is_denial" "bool"; variable "has_specific_reason" "bool"]
        "Must disclose specific denial reason"
        "12 CFR § 1002.9"]);
    ("extractors", PyDict [
      ("dti", pattern_extractor "float" "dti[:\s~]*(\d+(?:\.\d+)?)");
      ("credit_score", pattern_extractor "int" "(?:fico|credit score)[:\s]*(\d{3})");
      ("fees", pattern_extractor "money" "\$?([\d,]+)k?\s*(?:fees?|costs?)");
      ("loan_amount", pattern_extractor "money" "\$?([\d,]+)k?\s*(?:loan|mortgage)");
      ("has_guarantee", keyword_extractor ["guaranteed"; "100%"; "definitely"]);
      ("has_approval", keyword_extractor ["approved"; "approve"]);
      ("counseling_disclosed", keyword_extractor ["counseling"]);
      ("escrow_waived", keyword_extractor ["escrow waived"; "waive escrow"; "skip escrow"]);
      ("is_denial", keyword_extractor ["denied"; "cannot approve"]);
      ("has_specific_reason",
       keyword_extractor ["credit"; "income"; "dti"; "debt"; "score"])])].

(** The [try] block of [load]: [Ok None] when the [if] is not taken and
    control leaves the block without a [return]. *)
Definition load_try (self : Self) (gcs : Store) (ontology_name : string)
    : result (option pyval) :=
  if storage_client self then
    content <- download_as_text gcs (bucket_name self) (ontology_name ++ ".json") ;;
    ontology <- json_loads content ;;
    valid <- _validate_ontology ontology ;;
    Ok (Some valid)
  else Ok None.

(** The body of [load], under the decorator. *)
Definition load_body (self : Self) (gcs : Store) (ontology_name : string)
    (st : State) : result pyval * State :=
  let st1 :=
    if storage_client self then note_download (ontology_name ++ ".json") st else st in
  let use_default (s : State) :=
    (Ok _get_default_ontology,
     logging INFO ("Using default ontology for " ++ ontology_name) s) in
  match load_try self gcs ontology_name with
  | Ok (Some ontology) => (Ok ontology, st1)
  | Ok None => use_default st1
  | Raise e =>
      if is_NotFound e
      then use_default
             (logging INFO ("Ontology " ++ ontology_name ++ " not found in GCS") st1)
      else use_default
             (logging WARNING ("Failed to load from GCS: " ++ exn_str e) st1)
  end.

(* ------------------------------------------------------------------ *)
(** ** [functools.lru_cache] *)

Definition maxsize : nat := 10.

Fixpoint cache_get (key : string) (c : list (string * pyval)) : option pyval :=
  match c with
  | [] => None
  | (k, v) :: rest => if k =? key then Some v else cache_get key rest
  end.

Fixpoint cache_remove (key : string) (c : list (string * pyval))
    : list (string * pyval) :=
  match c with
  | [] => []
  | (k, v) :: rest => if k =? key then rest else (k, v) :: cache_remove key rest
  end.

(** A hit moves the entry to the most recently used position. *)
Definition cache_touch (key : string) (v : pyval) (c : list (string * pyval))
    : list (string * pyval) :=
  (key, v) :: cache_remove key c.

(** A miss stores the new result; a full cache first drops its least
    recently used entry, the last one. *)
Definition cache_store (key : string) (v : pyval) (c : list (string * pyval))
    : list (string * pyval) :=
  match cache_get key c with
  | Some _ => c
  | None => (key, v) :: (if (maxsize <=? length c)%nat then removelast c else c)
  end.

(** [load], as callers see it: [@lru_cache(maxsize=10)] around the body.
    A raising call stores nothing. *)
Definition load (self : Self) (gcs : Store) (ontology_name : string) (st : State)
    : result pyval * State :=
  match cache_get ontology_name (cache st) with
  | Some ontology =>
      (Ok ontology, set_cache (cache_touch ontology_name ontology (cache st)) st)
  | None =>
      match load_body self gcs ontology_name st with
      | (Ok ontology, st1) =>
          (Ok ontology, set_cache (cache_store ontology_name ontology (cache st1)) st1)
      | (Raise e, st1) => (Raise e, st1)
      end
  end.

(* ------------------------------------------------------------------ *)
(** ** [list_available] *)

(** Running the list comprehension over the iterator. *)
Definition comprehension (blobs : blob_iterator) : result (list string) :=
  match failure blobs with
  | Some e => Raise e
  | None =>
      Ok (map (fun name => replace ".json" "" name)
              (filter (fun name => endswith ".json" name) (yielded blobs)))
  end.

Definition list_available (self : Self) (gcs : Store) (st : State)
    : result (list string) * State :=
  match
    (if storage_client self
     then names <- comprehension (list_blobs gcs (bucket_name self)) ;; Ok (Some names)
     else Ok None)
  with
  | Ok (Some names) => (Ok names, st)
  | Ok None => (Ok ["mortgage-compliance-v1"], st)
  | Raise e =>
      (Ok ["mortgage-compliance-v1"],
       logging WARNING ("Failed to list ontologies: " ++ exn_str e) st)
  end.

End OntologyLoader.

(* ================================================================== *)
(** * main.py *)
(* ================================================================== *)

Module Main.

Definition ALLOWED_ORIGINS : list string :=
  ["https://aare.ai";
   "https://www.aare.ai";
   "http://localhost:8000";
   "http://localhost:3000"].

(** What the handler reads of a request: the verb, the [Origin] header if
    there is one, and the JSON value of the body ([None] when no JSON can be
    read from it). *)
Record Request : Type := mkRequest {
  method : string;
  Origin : option string;
  json_body : option pyval
}.

(** [request.headers.get("Origin", default)] *)
Definition headers_get_Origin (request : Request) (default : string) : string :=
  match Origin request with Some o => o | None => default end.

(** [request.get_json(silent=True)]: [None] instead of an error. *)
Definition get_json (request : Request) : pyval :=
  match json_body request with Some v => v | None => PyNone end.

(** A response body: a literal string, or the string [json.dumps(v)],
    represented by [v]. *)
Inductive text : Type :=
| Literal (s : string)
| Dumps (v : pyval).

Record Response : Type := mkResponse {
  body : text;
  status : Z;
  headers : list (string * string)
}.

Fixpoint header (name : string) (hs : list (string * string)) : option string :=
  match hs with
  | [] => None
  | (k, v) :: rest => if k =? name then Some v else header name rest
  end.

Definition get_cors_headers (request : Request) : list (string * string) :=
  let origin := headers_get_Origin request "" in
  let allowed_origin :=
    if existsb (String.eqb origin) ALLOWED_ORIGINS
    then origin
    else nth 0 ALLOWED_ORIGINS "" in
  [("Content-Type", "application/json");
   ("Access-Control-Allow-Origin", allowed_origin);
   ("Access-Control-Allow-Headers", "Content-Type,x-api-key,Authorization");
   ("Access-Control-Allow-Methods", "OPTIONS,POST")].

(** The objects built from [aare_core] at import time, and the two library
    calls of the response, over the state [World] of whatever they depend on.
    Their results are values that [json.dumps] accepts. *)
Record Services (World : Type) : Type := mkServices {
  ontology_loader_load : pyval -> World -> result pyval * World;
  llm_parser_parse : pyval -> pyval -> World -> result pyval * World;
  smt_verifier_verify : pyval -> pyval -> World -> result pyval * World;
  uuid4 : World -> string * World;
  utcnow_isoformat : World -> string * World
}.
Arguments ontology_loader_load {World} _ _ _.
Arguments llm_parser_parse {World} _ _ _ _.
Arguments smt_verifier_verify {World} _ _ _ _.
Arguments uuid4 {World} _ _.
Arguments utcnow_isoformat {World} _ _.

(** The calls a request makes into the three components, oldest first. *)
Inductive call : Type :=
| Load (ontology_name : pyval)
| Parse (llm_output ontology : pyval)
| Verify (extracted_data ontology : pyval).

Record Process (World : Type) : Type := mkProcess {
  env : World;
  calls : list call
}.
Arguments mkProcess {World} _ _.
Arguments env {World} _.
Arguments calls {World} _.

Section Handler.

Context {World : Type}.
Variable services : Services World.

(** Computations of the handler: state and exceptions. *)
Definition M (A : Type) : Type := Process World -> result A * Process World.

Definition ret {A : Type} (a : A) : M A := fun p => (Ok a, p).

Definition raise_from {A : Type} (r : result A) : M A := fun p => (r, p).

Definition bindM {A B : Type} (c : M A) (k : A -> M B) : M B :=
  fun p =>
    match c p with
    | (Ok a, p1) => k a p1
    | (Raise e, p1) => (Raise e, p1)
    end.

Notation "x <~ c ;; k" := (bindM c (fun x => k))
  (at level 61, c at next level, right associativity).

(** A call into a component: recorded, then run on the environment. *)
Definition invoke {A : Type} (c : call) (f : World -> result A * World) : M A :=
  fun p =>
    let (r, s1) := f (env p) in
    (r, mkProcess s1 (calls p ++ [c])).

Definition library {A : Type} (f : World -> A * World) : M A :=
  fun p => let (a, s1) := f (env p) in (Ok a, mkProcess s1 (calls p)).

Definition error_body (msg : string) : text :=
  Dumps (PyDict [("error", PyStr msg)]).

(** Building [response_body] and the 200 response: the entries of the dict
    display are evaluated from first to last. *)
Definition build_response (extracted_data verification_result ontology : pyval)
    (cors_headers : list (string * string)) : M Response :=
  verified <~ raise_from (subscript verification_result "verified") ;;
  violations <~ raise_from (subscript verification_result "violations") ;;
  name <~ raise_from (subscript ontology "name") ;;
  version <~ raise_from (subscript ontology "version") ;;
  constraints <~ raise_from (subscript ontology "constraints") ;;
  constraints_checked <~ raise_from (py_len constraints) ;;
  proof <~ raise_from (subscript verification_result "proof") ;;
  verification_id <~ library (uuid4 services) ;;
  execution_time_ms <~
    raise_from (subscript verification_result "execution_time_ms") ;;
  timestamp <~ library (utcnow_isoformat services) ;;
  let response_body :=
    PyDict [("verified", verified);
            ("violations", violations);
            ("parsed_data", extracted_data);
            ("ontology", PyDict [("name", name);
                                 ("version", version);
                                 ("constraints_checked", PyInt constraints_checked)]);
            ("proof", proof);
            ("solver", PyStr "Constraint Logic");
            ("verification_id", PyStr verification_id);
            ("execution_time_ms", execution_time_ms);
            ("timestamp", PyStr timestamp)] in
  ret (mkResponse (Dumps response_body) 200 cors_headers).

(** The [try] block of [verify]. *)
Definition verify_try (request : Request) (cors_headers : list (string * string))
    : M Response :=
  let request_json := get_json request in
  if negb (truthy request_json) then
    ret (mkResponse (error_body "Invalid JSON in request body") 400 cors_headers)
  else
    llm_output <~ raise_from (py_get request_json "llm_output" (PyStr "")) ;;
    ontology_name <~
      raise_from (py_get request_json "ontology" (PyStr "mortgage-compliance-v1")) ;;
    if negb (truthy llm_output) then
      ret (mkResponse (error_body "llm_output is required") 400 cors_headers)
    else
      ontology <~
        invoke (Load ontology_name) (ontology_loader_load services ontology_name) ;;
      extracted_data <~
        invoke (Parse llm_output ontology)
               (llm_parser_parse services llm_output ontology) ;;
      verification_result <~
        invoke (Verify extracted_data ontology)
               (smt_verifier_verify services extracted_data ontology) ;;
      build_response extracted_data verification_result ontology cors_headers.

(** The response of the [except Exception as e] clause. *)
Definition error_response (e : exn) (cors_headers : list (string * string))
    : Response :=
  mkResponse (Dumps (PyDict [("error", PyStr (exn_str e));
                             ("type", PyStr (exn_type e))]))
             500 cors_headers.

Definition verify (request : Request) (p : Process World) : Response * Process World :=
  let cors_headers := get_cors_headers request in
  if method request =? "OPTIONS" then
    (mkResponse (Literal "") 204 cors_headers, p)
  else if negb (method request =? "POST") then
    (mkResponse (error_body "Method not allowed") 405 cors_headers, p)
  else
    match verify_try request cors_headers p with
    | (Ok response, p1) => (response, p1)
    | (Raise e, p1) => (error_response e cors_headers, p1)
    end.

End Handler.

End Main.

(* ================================================================== *)
(** * Runs, failures and one concrete deployment *)
(* ================================================================== *)

Import OntologyLoader.

(** The process builds one [OntologyLoader] (main.py does so at import), so
    the cache key [(self, ontology_name)] is represented by the name. *)

(** A sequence of [load] calls, each against the store as it is then. *)
Fixpoint loads (self : Self) (requests : list (Store * string)) (st : State) : State :=
  match requests with
  | [] => st
  | (gcs, ontology_name) :: rest =>
      loads self rest (snd (load self gcs ontology_name st))
  end.

(** The states a loader can be in. *)
Inductive reachable (self : Self) : State -> Prop :=
| reach_initial : reachable self initial
| reach_load gcs ontology_name st :
    reachable self st ->
    reachable self (snd (load self gcs ontology_name st))
| reach_list gcs st :
    reachable self st ->
    reachable self (snd (list_available self gcs st)).

(** The four ways in which fetching [<name>.json] does not yield a valid
    document. *)
Inductive fetch_fails (self : Self) (gcs : Store) (ontology_name : string) : Prop :=
| object_not_found e :
    download_as_text gcs (bucket_name self) (ontology_name ++ ".json") = Raise e ->
    is_NotFound e = true ->
    fetch_fails self gcs ontology_name
| other_fetch_error e :
    download_as_text gcs (bucket_name self) (ontology_name ++ ".json") = Raise e ->
    is_NotFound e = false ->
    fetch_fails self gcs ontology_name
| malformed_json c e :
    download_as_text gcs (bucket_name self) (ontology_name ++ ".json") = Ok c ->
    json_loads c = Raise e ->
    fetch_fails self gcs ontology_name
| validation_fails c document e :
    download_as_text gcs (bucket_name self) (ontology_name ++ ".json") = Ok c ->
    json_loads c = Ok document ->
    _validate_ontology document = Raise e ->
    fetch_fails self gcs ontology_name.

Definition keys (c : list (string * pyval)) : list string := map fst c.

(** The names of a sequence of requests. *)
Definition names (requests : list (Store * string)) : list string := map snd requests.

(** How many different names a list holds. *)
Definition distinct (l : list string) : nat := length (nodup string_dec l).

(** The names used so far, without repetition, the most recently used
    first. *)
Definition use (recent : list string) (ontology_name : string) : list string :=
  ontology_name :: List.remove string_dec ontology_name recent.

Definition recency (used : list string) : list string := fold_left use used [].

(** The keys in front of [key]: those used more recently. *)
Fixpoint before (key : string) (c : list (string * pyval)) : list string :=
  match c with
  | [] => []
  | (k, _) :: rest => if k =? key then [] else k :: before key rest
  end.

(** What [load] keeps true of its cache. *)
Definition well_formed (c : list (string * pyval)) : Prop :=
  NoDup (keys c) /\ length c <= maxsize.

(** [ontology_name] is cached with [ontology], and every name used more
    recently is one of [others]. *)
Definition retained (others : list string) (ontology_name : string)
    (ontology : pyval) (c : list (string * pyval)) : Prop :=
  cache_get ontology_name c = Some ontology
  /\ incl (before ontology_name c) others
  /\ well_formed c.

(** ** Stores used in the examples *)

(** A loader with a client, on the default bucket. *)
Definition online : Self := init None None (Ok tt).

(** A loader whose [storage.Client()] raised. *)
Definition offline : Self :=
  init None None (Raise (mkExn "DefaultCredentialsError" "no credentials")).

(** A bucket without objects. *)
Definition empty_bucket : Store :=
  mkStore (fun _ object => Raise (NotFound ("404 " ++ object)))
          (fun _ => Blobs [] None).

(** A bucket that cannot be reached. *)
Definition unreachable_bucket : Store :=
  mkStore (fun _ _ => Raise (mkExn "ServiceUnavailable" "503 backend error"))
          (fun _ => Blobs [] (Some (mkExn "ServiceUnavailable" "503 backend error"))).

(** A bucket whose every object holds the JSON text [text]. *)
Definition bucket_of (text : content) (objects : list string) : Store :=
  mkStore (fun _ _ => Ok text) (fun _ => Blobs objects None).

(** The JSON text
    [["name", "version", "constraints", "extractors"]]: an array of four
    strings. *)
Definition array_of_field_names : pyval :=
  PyList [PyStr "name"; PyStr "version"; PyStr "constraints"; PyStr "extractors"].

(** ** The endpoint of a process without storage client

    [load] as the handler calls it, with any JSON value as name:
    [lru_cache] hashes its arguments before the body runs, so a list or a
    dict raises [TypeError]; the body, without a client, returns the default
    ontology whatever the name. The extractor finds nothing and the solver
    reports no violation. *)
Definition hashable (v : pyval) : bool :=
  match v with
  | PyList _ | PyDict _ => false
  | _ => true
  end.

Definition offline_load (ontology_name : pyval) (w : unit) : result pyval * unit :=
  if hashable ontology_name
  then (Ok _get_default_ontology, w)
  else (Raise (TypeError ("unhashable type: '" ++ type_name ontology_name ++ "'")), w).

Definition offline_services : Main.Services unit :=
  Main.mkServices unit
    offline_load
    (fun _ _ w => (Ok (PyDict []), w))
    (fun _ _ w =>
       (Ok (PyDict [("verified", PyBool true);
                    ("violations", PyList []);
                    ("proof", PyDict []);
                    ("execution_time_ms", PyInt 1)]), w))
    (fun w => ("9f1c2d3e-4b5a-4c6d-8e7f-0a1b2c3d4e5f", w))
    (fun w => ("2025-01-01T00:00:00.000000", w)).

(** Services whose extractor raises. *)
Definition failing_parser : Main.Services unit :=
  Main.mkServices unit
    offline_load
    (fun _ _ w => (Raise (ValueError "could not convert string to float"), w))
    (Main.smt_verifier_verify offline_services)
    (Main.uuid4 offline_services)
    (Main.utcnow_isoformat offline_services).

(** Services whose solver answers with a verdict only. *)
Definition terse_solver : Main.Services unit :=
  Main.mkServices unit
    offline_load
    (Main.llm_parser_parse offline_services)
    (fun _ _ w => (Ok (PyDict [("verified", PyBool true)]), w))
    (Main.uuid4 offline_services)
    (Main.utcnow_isoformat offline_services).

Definition start : Main.Process unit := Main.mkProcess tt [].

Definition post (json : pyval) : Main.Request :=
  Main.mkRequest "POST" (Some "https://www.aare.ai") (Some json).

(** Three request bodies: [{"llm_output": "DTI: 50%"}],
    [{"llm_output": 7}] and [{"llm_output": 7, "ontology": []}]. *)
Definition dti_request : Main.Request :=
  post (PyDict [("llm_output", PyStr "DTI: 50%")]).

Definition number_request : Main.Request :=
  post (PyDict [("llm_output", PyInt 7)]).

Definition unhashable_request : Main.Request :=
  post (PyDict [("llm_output", PyInt 7); ("ontology", PyList [])]).

(** ** The phases of a request after validation *)

Section Phases.

Context {World : Type}.
Variable services : Main.Services World.

(** [e] is raised, for a request that passed both checks, while loading the
    ontology, extracting, verifying, or assembling the response. *)
Inductive raised_after_validation (llm_output ontology_name : pyval) (w : World)
    (e : exn) : Prop :=
| raised_loading w1 :
    Main.ontology_loader_load services ontology_name w = (Raise e, w1) ->
    raised_after_validation llm_output ontology_name w e
| raised_extracting ontology w1 w2 :
    Main.ontology_loader_load services ontology_name w = (Ok ontology, w1) ->
    Main.llm_parser_parse services llm_output ontology w1 = (Raise e, w2) ->
    raised_after_validation llm_output ontology_name w e
| raised_verifying ontology w1 extracted_data w2 w3 :
    Main.ontology_loader_load services ontology_name w = (Ok ontology, w1) ->
    Main.llm_parser_parse services llm_output ontology w1 = (Ok extracted_data, w2) ->
    Main.smt_verifier_verify services extracted_data ontology w2 = (Raise e, w3) ->
    raised_after_validation llm_output ontology_name w e
| raised_assembling ontology w1 extracted_data w2 verification_result w3 :
    Main.ontology_loader_load services ontology_name w = (Ok ontology, w1) ->
    Main.llm_parser_parse services llm_output ontology w1 = (Ok extracted_data, w2) ->
    Main.smt_verifier_verify services extracted_data ontology w2
      = (Ok verification_result, w3) ->
    fst (Main.build_response services extracted_data verification_result ontology []
           (Main.mkProcess w3 [])) = Raise e ->
    raised_after_validation llm_output ontology_name w e.

(** The request is a POST that passes both checks, and [e] is raised in one
    of the four phases that follow. *)
Inductive raised_in_pipeline (request : Main.Request) (w : World) (e : exn) : Prop :=
| raised_in_pipeline_intro entries llm_output ontology_name :
    Main.method request = "POST" ->
    Main.get_json request = PyDict entries ->
    py_get (PyDict entries) "llm_output" (PyStr "") = Ok llm_output ->
    py_get (PyDict entries) "ontology" (PyStr "mortgage-compliance-v1")
      = Ok ontology_name ->
    truthy (PyDict entries) = true ->
    truthy llm_output = true ->
    raised_after_validation llm_output ontology_name w e ->
    raised_in_pipeline request w e.

End Phases.

(** ** The statements of the specification about the endpoint *)

(** The value the specification gives to Access-Control-Allow-Origin: the
    request's origin if it is one of the allow-listed origins, the primary
    domain otherwise, also without an Origin header. *)
Definition expected_allow_origin (request : Main.Request) : string :=
  match Main.Origin request with
  | Some origin =>
      if in_dec string_dec origin Main.ALLOWED_ORIGINS then origin else "https://aare.ai"
  | None => "https://aare.ai"
  end.

(** The field [llm_output] of a JSON body, if the body has one. *)
Definition llm_output_of (json : pyval) : option pyval :=
  match json with
  | PyDict entries => dict_get "llm_output" entries
  | _ => None
  end.

(** The field [ontology] of a JSON object, or its default. *)
Definition ontology_name_of (entries : list (string * pyval)) : pyval :=
  match dict_get "ontology" entries with
  | Some ontology_name => ontology_name
  | None => PyStr "mortgage-compliance-v1"
  end.

Definition llm_output_required (request : Main.Request) : Main.Response :=
  Main.mkResponse (Main.error_body "llm_output is required") 400
                  (Main.get_cors_headers request).

Definition invalid_json (request : Main.Request) : Main.Response :=
  Main.mkResponse (Main.error_body "Invalid JSON in request body") 400
                  (Main.get_cors_headers request).

(** The specification's sentence on a missing [llm_output], as it stands:
    every POST whose body parses as JSON, with [llm_output] missing or
    empty, is answered 400, llm_output is required. *)
Definition missing_llm_output_as_stated {World : Type}
    (services : Main.Services World) : Prop :=
  forall request p json,
    Main.method request = "POST" ->
    Main.json_body request = Some json ->
    llm_output_of json = None \/ llm_output_of json = Some (PyStr "") ->
    fst (Main.verify services request p) = llm_output_required request.

(** The specification's sentence on a truthy [llm_output] that is not a
    string, as it stands: the request is not answered 400, the ontology is
    loaded and the extractor is called with that value. *)
Definition truthy_llm_output_as_stated {World : Type}
    (services : Main.Services World) : Prop :=
  forall request p entries llm_output,
    Main.method request = "POST" ->
    Main.json_body request = Some (PyDict entries) ->
    dict_get "llm_output" entries = Some llm_output ->
    truthy llm_output = true ->
    is_str llm_output = false ->
    Main.status (fst (Main.verify services request p)) <> 400%Z
    /\ In (Main.Load (ontology_name_of entries))
          (Main.calls (snd (Main.verify services request p)))
    /\ exists ontology,
         In (Main.Parse llm_output ontology)
            (Main.calls (snd (Main.verify services request p))).

(** Ten different names loaded into a fresh cache, n0 first. *)
Definition ten_loaded : State :=
  loads online
    (map (fun ontology_name => (empty_bucket, ontology_name))
         ["n0"; "n1"; "n2"; "n3"; "n4"; "n5"; "n6"; "n7"; "n8"; "n9"])
    initial.

(** ** Further statements about the loader *)

(** The first of the required fields that a JSON object lacks. *)
Definition first_missing (entries : list (string * pyval)) : option string :=
  find (fun field => negb (dict_has field entries)) required_fields.

(** The values on which the membership tests of [_validate_ontology] all
    succeed: an object with the four keys, an array holding the four names
    as strings, a string in which the four names occur. *)
Definition accepted (document : pyval) : Prop :=
  match document with
  | PyDict entries =>
      forall field, In field required_fields -> dict_has field entries = true
  | PyList items =>
      forall field, In field required_fields -> In (PyStr field) items
  | PyStr s =>
      forall field, In field required_fields -> str_contains field s = true
  | _ => False
  end.

(** A document with the four fields and nothing else. *)
Definition hipaa_document : pyval :=
  PyDict [("name", PyStr "hipaa-v1");
          ("version", PyStr "0.1.0");
          ("constraints", PyList []);
          ("extractors", PyDict [])].

(** A bucket with the given objects, each holding [hipaa_document]. *)
Definition hipaa_bucket (objects : list string) : Store :=
  bucket_of (Text (Ok hipaa_document)) objects.

(** Eleven different names requested of an empty bucket, n0 first. *)
Definition eleven_requests : list (Store * string) :=
  map (fun ontology_name => (empty_bucket, ontology_name))
      ["n0"; "n1"; "n2"; "n3"; "n4"; "n5"; "n6"; "n7"; "n8"; "n9"; "n10"].

(** The object that stores an ontology. *)
Definition object_of (ontology_name : string) : string := ontology_name ++ ".json".

(** ** Further statements about the endpoint *)


Section Traces.

Context {World : Type}.
Variable services : Main.Services World.

(** The calls of a request that passed both checks, from the environment
    [w]: [load], then the extractor with the ontology that [load] returned,
    then the solver with the data that the extractor returned and the same
    ontology; a call that raises is the last one. *)
Inductive pipeline_trace (llm_output ontology_name : pyval) (w : World)
    : list Main.call -> Prop :=
| stopped_loading e w1 :
    Main.ontology_loader_load services ontology_name w = (Raise e, w1) ->
    pipeline_trace llm_output ontology_name w [Main.Load ontology_name]
| stopped_extracting ontology w1 e w2 :
    Main.ontology_loader_load services ontology_name w = (Ok ontology, w1) ->
    Main.llm_parser_parse services llm_output ontology w1 = (Raise e, w2) ->
    pipeline_trace llm_output ontology_name w
      [Main.Load ontology_name; Main.Parse llm_output ontology]
| reached_verifying ontology w1 extracted_data w2 :
    Main.ontology_loader_load services ontology_name w = (Ok ontology, w1) ->
    Main.llm_parser_parse services llm_output ontology w1 = (Ok extracted_data, w2) ->
    pipeline_trace llm_output ontology_name w
      [Main.Load ontology_name; Main.Parse llm_output ontology;
       Main.Verify extracted_data ontology].

End Traces.

(* ================================================================== *)
(** * Properties of the ontology loader *)
(* ================================================================== *)

Lemma load_body_returns self gcs ontology_name st :
  exists ontology, fst (load_body self gcs ontology_name st) = Ok ontology.
Proof.
  unfold load_body.
  destruct (load_try self gcs ontology_name) as [[ontology|]|e]; simpl.
  - now exists ontology.
  - now exists _get_default_ontology.
  - destruct (is_NotFound e); now exists _get_default_ontology.
Qed.

Lemma load_body_cache self gcs ontology_name st :
  cache (snd (load_body self gcs ontology_name st)) = cache st.
Proof.
  unfold load_body.
  destruct (load_try self gcs ontology_name) as [[ontology|]|e];
    [ | | destruct (is_NotFound e)];
    destruct (storage_client self); reflexivity.
Qed.

(** [load] returns for every name, store and state. *)
Lemma load_returns self gcs ontology_name st :
  exists ontology, fst (load self gcs ontology_name st) = Ok ontology.
Proof.
  unfold load.
  destruct (cache_get ontology_name (cache st)) as [cached|].
  - now exists cached.
  - destruct (load_body_returns self gcs ontology_name st) as [ontology H].
    destruct (load_body self gcs ontology_name st) as [[o|e] st1]; simpl in H.
    + now exists o.
    + discriminate.
Qed.

(** A failed fetch leaves the [try] block through an exception. *)
Lemma load_try_fails self gcs ontology_name :
  fetch_fails self gcs ontology_name ->
  load_try self gcs ontology_name = Ok None \/
  exists e, load_try self gcs ontology_name = Raise e.
Proof.
  intros F. unfold load_try.
  destruct (storage_client self); [right | now left].
  destruct F as [e D _ | e D _ | c e D J | c document e D J V];
    rewrite D; simpl; try (now exists e);
    rewrite J; simpl; try (now exists e).
  rewrite V. now exists e.
Qed.

Lemma load_body_default self gcs ontology_name st :
  fetch_fails self gcs ontology_name ->
  fst (load_body self gcs ontology_name st) = Ok _get_default_ontology.
Proof.
  intros F. unfold load_body.
  destruct (load_try_fails _ _ _ F) as [H | [e H]]; rewrite H.
  - reflexivity.
  - destruct (is_NotFound e); reflexivity.
Qed.

(** A dict that passes [_validate_ontology] has the four fields. *)
Lemma validated_dict_has_fields entries :
  _validate_ontology (PyDict entries) = Ok (PyDict entries) ->
  forall field, In field required_fields -> dict_has field entries = true.
Proof.
  unfold _validate_ontology, required_fields. simpl.
  destruct (dict_has "name" entries) eqn:H1; simpl; [|discriminate].
  destruct (dict_has "version" entries) eqn:H2; simpl; [|discriminate].
  destruct (dict_has "constraints" entries) eqn:H3; simpl; [|discriminate].
  destruct (dict_has "extractors" entries) eqn:H4; simpl; [|discriminate].
  intros _ field [<-|[<-|[<-|[<-|[]]]]]; assumption.
Qed.

(** C1. On a stored object whose text is the JSON array
    [["name", "version", "constraints", "extractors"]], [load] returns that
    array: the membership tests of [_validate_ontology] succeed on a list
    of strings, so the value returned is not a document with fields, and
    reading its ["name"] raises. *)
Theorem load_returns_array_of_field_names :
  fst (load online (bucket_of (Text (Ok array_of_field_names)) ["rules.json"])
            "rules" initial)
    = Ok array_of_field_names
  /\ is_dict array_of_field_names = false
  /\ subscript array_of_field_names "name"
       = Raise (TypeError "list indices must be integers or slices, not str").
Proof. repeat split. Qed.

(** C2. When the fetch of [<name>.json] fails (object not found, another
    fetch error, malformed JSON, or a document that fails validation),
    [load name] returns the built-in default ontology, whose name is
    mortgage-compliance-v1 and which has 5 constraints and 10 extractors. *)
Theorem load_falls_back_to_default self gcs ontology_name st :
  cache_get ontology_name (cache st) = None ->
  fetch_fails self gcs ontology_name ->
  fst (load self gcs ontology_name st) = Ok _get_default_ontology
  /\ subscript _get_default_ontology "name" = Ok (PyStr "mortgage-compliance-v1")
  /\ (constraints <- subscript _get_default_ontology "constraints" ;;
      py_len constraints) = Ok 5%Z
  /\ (extractors <- subscript _get_default_ontology "extractors" ;;
      py_len extractors) = Ok 10%Z.
Proof.
  intros Miss F. split; [|repeat split].
  unfold load. rewrite Miss.
  pose proof (load_body_default self gcs ontology_name st F) as H.
  destruct (load_body self gcs ontology_name st) as [[o|e] st1]; simpl in H.
  - exact H.
  - discriminate.
Qed.

Lemma load_falls_back_to_default_witness :
  fst (load online empty_bucket "mortgage-compliance-v2" initial)
    = Ok _get_default_ontology
  /\ fst (load online unreachable_bucket "mortgage-compliance-v2" initial)
    = Ok _get_default_ontology
  /\ fst (load online (bucket_of (Text (Raise (JSONDecodeError "Expecting value"))) [])
               "mortgage-compliance-v2" initial)
    = Ok _get_default_ontology
  /\ fst (load online (bucket_of (Text (Ok (PyDict [("name", PyStr "x")]))) [])
               "mortgage-compliance-v2" initial)
    = Ok _get_default_ontology.
Proof.
  split; [|split; [|split]].
  - apply (load_falls_back_to_default online empty_bucket "mortgage-compliance-v2" initial).
    + reflexivity.
    + eapply object_not_found; reflexivity.
  - apply (load_falls_back_to_default online unreachable_bucket
             "mortgage-compliance-v2" initial).
    + reflexivity.
    + eapply other_fetch_error; reflexivity.
  - apply (load_falls_back_to_default online
             (bucket_of (Text (Raise (JSONDecodeError "Expecting value"))) [])
             "mortgage-compliance-v2" initial).
    + reflexivity.
    + eapply malformed_json; reflexivity.
  - apply (load_falls_back_to_default online
             (bucket_of (Text (Ok (PyDict [("name", PyStr "x")]))) [])
             "mortgage-compliance-v2" initial).
    + reflexivity.
    + eapply validation_fails; reflexivity.
Defined.


(** C7. [list_available] returns for every store and state, and when there
    is no storage client or the listing fails, what it returns is the
    one-element list of mortgage-compliance-v1. *)
Theorem list_available_never_raises self gcs st :
  exists available,
    fst (list_available self gcs st) = Ok available
    /\ (storage_client self = false
        \/ failure (list_blobs gcs (bucket_name self)) <> None ->
        available = ["mortgage-compliance-v1"]).
Proof.
  unfold list_available, comprehension.
  destruct (storage_client self).
  - destruct (failure (list_blobs gcs (bucket_name self))) as [e|]; simpl.
    + eexists; split; [reflexivity | reflexivity].
    + eexists; split; [reflexivity |].
      intros [H | H]; [discriminate | now elim H].
  - eexists; split; reflexivity.
Qed.

Lemma list_available_never_raises_witness :
  fst (list_available offline empty_bucket initial) = Ok ["mortgage-compliance-v1"]
  /\ fst (list_available online unreachable_bucket initial)
     = Ok ["mortgage-compliance-v1"].
Proof.
  split.
  - destruct (list_available_never_raises offline empty_bucket initial)
      as [available [E D]].
    rewrite E. f_equal. apply D. left. reflexivity.
  - destruct (list_available_never_raises online unreachable_bucket initial)
      as [available [E D]].
    rewrite E. f_equal. apply D. right. discriminate.
Defined.

(** For a name without a dot before its suffix, [replace] strips the
    suffix and nothing else. *)
Lemma replace_plain_name base :
  str_contains "." base = false ->
  replace ".json" "" (base ++ ".json") = base.
Proof.
  unfold replace, str_contains.
  induction base as [|c base IH]; [reflexivity|].
  cbn [index append].
  change (prefix "." (String c base))
    with (if ascii_dec "."%char c then prefix "" base else false).
  destruct (ascii_dec "."%char c) as [E|D].
  - destruct base; discriminate.
  - intros H. cbn [replace_from].
    change (prefix ".json" (String c (base ++ ".json")))
      with (if ascii_dec "."%char c then prefix "json" (base ++ ".json") else false).
    destruct (ascii_dec "."%char c) as [E|_]; [contradiction|].
    f_equal. apply IH. destruct (index 0 "." base); [discriminate | reflexivity].
Qed.

(** C8. For a bucket holding the object rules.json.v2.json, whose listing
    succeeds, [list_available] returns rules.v2: [replace] removes the
    inner .json as well as the trailing one, where stripping the suffix
    alone gives rules.json.v2. *)
Theorem list_available_removes_inner_json :
  fst (list_available online
         (bucket_of (Text (Ok _get_default_ontology))
                    ["rules.json.v2.json"; "mortgage-compliance-v1.json"; "README.md"])
         initial)
    = Ok ["rules.v2"; "mortgage-compliance-v1"]
  /\ substring 0 (String.length "rules.json.v2.json" - String.length ".json")
       "rules.json.v2.json" = "rules.json.v2".
Proof. split; reflexivity. Qed.

(* ------------------------------------------------------------------ *)
(** ** The cache of [load] *)

Section Cache.

Implicit Types (c : list (string * pyval)) (k key : string) (v : pyval).

Lemma cache_get_None key c : cache_get key c = None <-> ~ In key (keys c).
Proof.
  induction c as [|[k v] c IH]; simpl.
  - tauto.
  - destruct (String.eqb_spec k key) as [->|N].
    + split; [discriminate | intros H; elim H; now left].
    + rewrite IH. split; [intros H [E|I]; [now elim N | now elim H] | tauto].
Qed.

Lemma cache_get_In key c v : cache_get key c = Some v -> In key (keys c).
Proof.
  intros H. destruct (in_dec string_dec key (keys c)) as [I|N]; [exact I|].
  apply cache_get_None in N. congruence.
Qed.

Lemma keys_cache_remove key c : incl (keys (cache_remove key c)) (keys c).
Proof.
  induction c as [|[k v] c IH]; simpl.
  - apply incl_refl.
  - destruct (k =? key).
    + apply incl_tl, incl_refl.
    + simpl. intros x [<-|I]; [now left | right; now apply IH].
Qed.

Lemma NoDup_cache_remove key c :
  NoDup (keys c) -> NoDup (keys (cache_remove key c)) /\ ~ In key (keys (cache_remove key c)).
Proof.
  induction c as [|[k v] c IH]; simpl; intros N.
  - split; [constructor | tauto].
  - inversion N as [|? ? Hk Nc]; subst.
    destruct (String.eqb_spec k key) as [->|D].
    + split; assumption.
    + destruct (IH Nc) as [N1 N2]. simpl. split.
      * constructor; [|exact N1]. intros I. apply Hk. now apply (keys_cache_remove key).
      * intros [E|I]; [now elim D | now elim N2].
Qed.

Lemma length_cache_remove key c v :
  cache_get key c = Some v -> S (length (cache_remove key c)) = length c.
Proof.
  induction c as [|[k w] c IH]; simpl; [discriminate|].
  destruct (k =? key); [reflexivity|]. intros H. simpl. now rewrite IH.
Qed.

Lemma cache_get_cache_remove key k c :
  k <> key -> cache_get key (cache_remove k c) = cache_get key c.
Proof.
  intros D. induction c as [|[k' w] c IH]; simpl; [reflexivity|].
  destruct (String.eqb_spec k' k) as [->|D'].
  - destruct (String.eqb_spec k key) as [E|_]; [now elim D | reflexivity].
  - simpl. now rewrite IH.
Qed.

Lemma before_cache_remove key k c :
  k <> key -> incl (before key (cache_remove k c)) (before key c).
Proof.
  intros D. induction c as [|[k' w] c IH]; simpl; [apply incl_refl|].
  destruct (String.eqb_spec k' k) as [->|D'].
  - destruct (String.eqb_spec k key) as [E|_]; [now elim D|]. apply incl_tl, incl_refl.
  - simpl. destruct (k' =? key); [apply incl_refl|].
    intros x [<-|I]; [now left | right; now apply IH].
Qed.

Lemma before_keys key c : incl (before key c) (keys c).
Proof.
  induction c as [|[k w] c IH]; simpl; [apply incl_refl|].
  destruct (k =? key); [intros x [] |].
  intros x [<-|I]; [now left | right; now apply IH].
Qed.

Lemma NoDup_before key c : NoDup (keys c) -> NoDup (before key c).
Proof.
  induction c as [|[k w] c IH]; simpl; intros N; [constructor|].
  inversion N as [|? ? Hk Nc]; subst.
  destruct (k =? key); constructor; [|now apply IH].
  intros I. apply Hk. now apply (before_keys key).
Qed.

Lemma keys_removelast c : incl (keys (removelast c)) (keys c).
Proof.
  induction c as [|[k w] [|e c] IH]; simpl in *.
  - apply incl_refl.
  - intros x [].
  - intros x [<-|I]; [now left | right; now apply IH].
Qed.

Lemma NoDup_removelast c : NoDup (keys c) -> NoDup (keys (removelast c)).
Proof.
  induction c as [|[k w] [|e c] IH]; simpl in *; intros N; try constructor.
  - inversion N as [|? ? Hk Nc]; subst.
    intros I. apply Hk. now apply (keys_removelast (e :: c)).
  - inversion N; subst. now apply IH.
Qed.

Lemma length_removelast c : c <> [] -> S (length (removelast c)) = length c.
Proof.
  induction c as [|e [|e' c] IH]; simpl in *; intros H.
  - now elim H.
  - reflexivity.
  - f_equal. apply IH. discriminate.
Qed.

(** Dropping the last entry does not touch an entry that is not the last. *)
Lemma removelast_keeps key c v :
  cache_get key c = Some v ->
  S (length (before key c)) < length c ->
  cache_get key (removelast c) = Some v /\ before key (removelast c) = before key c.
Proof.
  induction c as [|[k w] c IH]; [discriminate|].
  destruct c as [|e c'].
  - simpl. destruct (k =? key); simpl; intros; lia.
  - change (removelast ((k, w) :: e :: c')) with ((k, w) :: removelast (e :: c')).
    change (cache_get key ((k, w) :: e :: c'))
      with (if k =? key then Some w else cache_get key (e :: c')).
    change (before key ((k, w) :: e :: c'))
      with (if k =? key then [] else k :: before key (e :: c')).
    cbn [cache_get before].
    destruct (k =? key); [tauto|].
    intros G L. destruct IH as [IH1 IH2]; [exact G | simpl in L |- *; lia |].
    split; [exact IH1 | now f_equal].
Qed.

Lemma well_formed_touch key v c :
  well_formed c -> cache_get key c = Some v -> well_formed (cache_touch key v c).
Proof.
  intros [N L] G. unfold well_formed, cache_touch. simpl.
  destruct (NoDup_cache_remove key c N) as [N1 N2].
  split; [now constructor|]. rewrite (length_cache_remove key c v G). exact L.
Qed.

Lemma well_formed_store key v c :
  well_formed c -> cache_get key c = None -> well_formed (cache_store key v c).
Proof.
  intros [N L] G. unfold well_formed, cache_store. rewrite G.
  apply cache_get_None in G.
  destruct (Nat.leb_spec maxsize (length c)) as [F|F]; simpl; split.
  - constructor; [|now apply NoDup_removelast].
    intros I. apply G. now apply keys_removelast.
  - assert (c <> []) as NE by (intros ->; simpl in F; unfold maxsize in F; lia).
    rewrite (length_removelast c NE). exact L.
  - now constructor.
  - lia.
Qed.

End Cache.

Lemma cache_after_load self gcs ontology_name st :
  cache (snd (load self gcs ontology_name st))
  = match cache_get ontology_name (cache st) with
    | Some cached => cache_touch ontology_name cached (cache st)
    | None =>
        match fst (load_body self gcs ontology_name st) with
        | Ok ontology => cache_store ontology_name ontology (cache st)
        | Raise _ => cache st
        end
    end.
Proof.
  unfold load. destruct (cache_get ontology_name (cache st)); [reflexivity|].
  pose proof (load_body_cache self gcs ontology_name st) as C.
  destruct (load_body self gcs ontology_name st) as [[o|e] st1]; simpl in *;
    now rewrite C.
Qed.

Lemma reachable_well_formed self st : reachable self st -> well_formed (cache st).
Proof.
  induction 1 as [| gcs ontology_name st R IH | gcs st R IH].
  - split; [constructor | simpl; unfold maxsize; lia].
  - rewrite cache_after_load.
    destruct (cache_get ontology_name (cache st)) eqn:G.
    + now apply well_formed_touch.
    + destruct (fst (load_body self gcs ontology_name st)); [|exact IH].
      now apply well_formed_store.
  - unfold list_available.
    destruct (if storage_client self then _ else _) as [[l|]|e]; exact IH.
Qed.

(** ** What the cache holds *)

Lemma In_cache_remove key c entry : In entry (cache_remove key c) -> In entry c.
Proof.
  induction c as [|[k v] c IH]; simpl; [tauto|].
  destruct (k =? key); [now right|]. intros [E|I]; [now left | right; now apply IH].
Qed.

Lemma In_removelast (c : list (string * pyval)) entry :
  In entry (removelast c) -> In entry c.
Proof.
  induction c as [|e [|e' c] IH]; [tauto | intros [] |].
  intros [E|I]; [now left | right; now apply IH].
Qed.

Lemma cache_get_entry key c v : cache_get key c = Some v -> In (key, v) c.
Proof.
  induction c as [|[k w] c IH]; simpl; [discriminate|].
  destruct (String.eqb_spec k key) as [->|D].
  - intros E. injection E as ->. now left.
  - intros G. right. now apply IH.
Qed.

(** A property of everything the body of [load] returns holds of every
    cached value, and so of everything [load] returns. *)
Lemma cached_values self (P : pyval -> Prop) :
  (forall gcs ontology_name st ontology,
      fst (load_body self gcs ontology_name st) = Ok ontology -> P ontology) ->
  forall st, reachable self st -> forall entry, In entry (cache st) -> P (snd entry).
Proof.
  intros Body st R. induction R as [| gcs requested st R IH | gcs st R IH].
  - intros entry [].
  - intros entry. rewrite cache_after_load.
    destruct (cache_get requested (cache st)) as [cached|] eqn:G.
    + intros [<-|I].
      * apply (IH (requested, cached)). now apply cache_get_entry.
      * apply IH. now apply (In_cache_remove requested).
    + destruct (fst (load_body self gcs requested st)) as [ontology|e] eqn:B;
        [|apply IH].
      unfold cache_store. rewrite G. intros [<-|I].
      * now apply (Body gcs requested st).
      * apply IH. destruct (maxsize <=? length (cache st))%nat; [|exact I].
        now apply In_removelast.
  - unfold list_available.
    destruct (if storage_client self then _ else _) as [[l|]|e]; exact IH.
Qed.

Lemma load_value self (P : pyval -> Prop) :
  (forall gcs ontology_name st ontology,
      fst (load_body self gcs ontology_name st) = Ok ontology -> P ontology) ->
  forall gcs ontology_name st ontology,
    reachable self st ->
    fst (load self gcs ontology_name st) = Ok ontology -> P ontology.
Proof.
  intros Body gcs ontology_name st ontology R. unfold load.
  destruct (cache_get ontology_name (cache st)) as [cached|] eqn:G.
  - intros E. injection E as <-.
    apply (cached_values self P Body st R (ontology_name, cached)).
    now apply cache_get_entry.
  - pose proof (Body gcs ontology_name st) as B.
    destruct (load_body self gcs ontology_name st) as [[o|e] st1]; [|discriminate].
    intros E. injection E as <-. now apply B.
Qed.

(** What [load] returns has passed the membership tests of
    [_validate_ontology]: this is what the code guarantees of the result,
    for a dict, a list or a string alike. *)
Lemma load_result_validated self gcs ontology_name st ontology :
  reachable self st ->
  fst (load self gcs ontology_name st) = Ok ontology ->
  check_fields required_fields ontology = Ok tt.
Proof.
  apply (load_value self (fun o => check_fields required_fields o = Ok tt)).
  clear. intros gcs ontology_name st ontology. unfold load_body, load_try.
  destruct (storage_client self); [|intros E; injection E as <-; reflexivity].
  destruct (download_as_text gcs (bucket_name self) (ontology_name ++ ".json"))
    as [c|e]; cbn [bind]; [|destruct (is_NotFound e); intros E; now injection E as <-].
  destruct (json_loads c) as [document|e]; cbn [bind];
    [|destruct (is_NotFound e); intros E; now injection E as <-].
  unfold _validate_ontology.
  destruct (check_fields required_fields document) as [[]|e] eqn:V; cbn [bind fst].
  - intros E. now injection E as <-.
  - destruct (is_NotFound e); intros E; now injection E as <-.
Qed.

Lemma load_hit self gcs ontology_name st cached :
  cache_get ontology_name (cache st) = Some cached ->
  load self gcs ontology_name st
  = (Ok cached, set_cache (cache_touch ontology_name cached (cache st)) st).
Proof. intros G. unfold load. now rewrite G. Qed.

(** A load that returns leaves its result at the front of the cache. *)
Lemma load_caches self gcs ontology_name st ontology st1 :
  load self gcs ontology_name st = (Ok ontology, st1) ->
  cache_get ontology_name (cache st1) = Some ontology
  /\ before ontology_name (cache st1) = [].
Proof.
  unfold load. destruct (cache_get ontology_name (cache st)) as [cached|] eqn:G.
  - intros E. injection E as <- <-. simpl. now rewrite String.eqb_refl.
  - pose proof (load_body_cache self gcs ontology_name st) as C.
    destruct (load_body self gcs ontology_name st) as [[o|e] st'];
      [|discriminate].
    intros E. injection E as <- <-. simpl in *.
    unfold cache_store. rewrite C, G. simpl. now rewrite String.eqb_refl.
Qed.

(** One more [load], of the name itself or of one of the [others], keeps
    the entry. *)
Lemma retained_load self gcs requested st others ontology_name ontology :
  length others < maxsize ->
  requested = ontology_name \/ In requested others ->
  retained others ontology_name ontology (cache st) ->
  retained others ontology_name ontology (cache (snd (load self gcs requested st))).
Proof.
  intros Bound Req (G & B & WF). rewrite cache_after_load.
  destruct (cache_get requested (cache st)) as [cached|] eqn:Hit.
  - (* hit *)
    split; [|split; [|now apply well_formed_touch]]; unfold cache_touch; simpl.
    + destruct (String.eqb_spec requested ontology_name) as [->|D]; [congruence|].
      now rewrite cache_get_cache_remove.
    + destruct (String.eqb_spec requested ontology_name) as [->|D];
        [intros x []|].
      destruct Req as [E|I]; [now elim D|].
      intros x [<-|Ix]; [exact I|]. apply B. now apply (before_cache_remove _ requested).
  - (* miss *)
    assert (requested <> ontology_name) as D by congruence.
    destruct Req as [E|I]; [now elim D|].
    destruct (load_body_returns self gcs requested st) as [o ->].
    assert (Nat.leb maxsize (length (cache st)) = true ->
            S (length (before ontology_name (cache st))) < length (cache st)) as Room.
    { intros Full. apply Nat.leb_le in Full. destruct WF as [N L].
      assert (NoDup (requested :: before ontology_name (cache st))) as N'.
      { constructor; [|now apply NoDup_before].
        intros Ib. apply cache_get_None in Hit. apply Hit.
        now apply (before_keys ontology_name). }
      assert (incl (requested :: before ontology_name (cache st)) others) as Inc
        by (intros x [<-|Ix]; [exact I | now apply B]).
      pose proof (NoDup_incl_length N' Inc) as Len. cbn [length] in Len. lia. }
    split; [|split; [|now apply well_formed_store]];
      unfold cache_store; rewrite Hit; cbn [cache_get before];
      destruct (String.eqb_spec requested ontology_name) as [E|_];
      try (now elim D);
      destruct (Nat.leb maxsize (length (cache st))) eqn:Full.
    + now apply removelast_keeps; [|apply Room].
    + exact G.
    + destruct (removelast_keeps ontology_name (cache st) ontology G (Room eq_refl))
        as [_ ->].
      intros x [<-|Ix]; [exact I | now apply B].
    + intros x [<-|Ix]; [exact I | now apply B].
Qed.

Lemma retained_loads self requests st others ontology_name ontology :
  length others < maxsize ->
  (forall x, In x (names requests) -> x = ontology_name \/ In x others) ->
  retained others ontology_name ontology (cache st) ->
  retained others ontology_name ontology (cache (loads self requests st)).
Proof.
  intros Bound. revert st.
  induction requests as [|[gcs requested] requests IH]; intros st Req R.
  - exact R.
  - simpl. apply IH.
    + intros x I. apply Req. now right.
    + apply retained_load; [exact Bound | apply Req; now left | exact R].
Qed.

(** The names other than [ontology_name], once each. *)
Lemma others_bound ontology_name l :
  distinct (ontology_name :: l) <= maxsize ->
  length (nodup string_dec (List.remove string_dec ontology_name l)) < maxsize.
Proof.
  intros H. unfold distinct in H.
  set (others := nodup string_dec (List.remove string_dec ontology_name l)).
  assert (NoDup (ontology_name :: others)) as N.
  { constructor; [|apply NoDup_nodup].
    unfold others. rewrite nodup_In. apply remove_In. }
  assert (incl (ontology_name :: others) (nodup string_dec (ontology_name :: l))) as Inc.
  { intros x [<-|I]; apply nodup_In; [now left|].
    unfold others in I. rewrite nodup_In in I. apply in_remove in I. now right. }
  pose proof (NoDup_incl_length N Inc) as Len. cbn [length] in Len. lia.
Qed.

(** C4. [load] memoizes per name in a cache of 10 entries with
    least-recently-used eviction. From any state of the loader: once
    [load name] has returned, then after any further loads such that at most
    10 distinct names are involved (the name included), [load name] returns
    the same ontology and asks nothing of the store, whatever the store
    holds by then; and on a full cache, loading a name that is not cached
    drops the last, least recently used, entry and keeps the nine others
    behind the new one. *)
Theorem load_memoized_lru self st :
  reachable self st ->
  (forall gcs ontology_name ontology st1 requests gcs',
      load self gcs ontology_name st = (Ok ontology, st1) ->
      distinct (ontology_name :: names requests) <= maxsize ->
      fst (load self gcs' ontology_name (loads self requests st1)) = Ok ontology
      /\ downloads (snd (load self gcs' ontology_name (loads self requests st1)))
         = downloads (loads self requests st1))
  /\ (forall gcs ontology_name older lru,
      cache st = older ++ [lru] ->
      length (cache st) = maxsize ->
      cache_get ontology_name (cache st) = None ->
      exists ontology st1,
        load self gcs ontology_name st = (Ok ontology, st1)
        /\ cache st1 = (ontology_name, ontology) :: older
        /\ cache_get (fst lru) (cache st1) = None).
Proof.
  intros R. split.
  - intros gcs ontology_name ontology st1 requests gcs' L Bound.
    set (others := nodup string_dec (List.remove string_dec ontology_name (names requests))).
    assert (retained others ontology_name ontology (cache (loads self requests st1)))
      as (G & _ & _).
    { apply retained_loads.
      - now apply others_bound.
      - intros x I. destruct (string_dec x ontology_name) as [E|D]; [now left|].
        right. unfold others. rewrite nodup_In. now apply in_in_remove.
      - destruct (load_caches _ _ _ _ _ _ L) as [G B].
        split; [exact G | split].
        + rewrite B. intros x [].
        + replace st1 with (snd (load self gcs ontology_name st)) by now rewrite L.
          apply (reachable_well_formed self). now constructor. }
    rewrite (load_hit _ _ _ _ _ G). split; reflexivity.
  - intros gcs ontology_name older lru Shape Full Miss.
    destruct (reachable_well_formed self st R) as [N _].
    pose proof (load_body_cache self gcs ontology_name st) as C.
    destruct (load_body_returns self gcs ontology_name st) as [ontology B].
    unfold load. rewrite Miss.
    destruct (load_body self gcs ontology_name st) as [[o|e] st'];
      simpl in B, C; [|discriminate].
    injection B as ->.
    exists ontology, (set_cache (cache_store ontology_name ontology (cache st')) st').
    split; [reflexivity|].
    assert (cache (set_cache (cache_store ontology_name ontology (cache st')) st')
            = (ontology_name, ontology) :: older) as E.
    { simpl. unfold cache_store. rewrite C, Miss, Full, Nat.leb_refl, Shape.
      now rewrite removelast_last. }
    split; [exact E|]. rewrite E.
    apply cache_get_None. rewrite Shape in N, Miss. apply cache_get_None in Miss.
    unfold keys in *. rewrite map_app in N, Miss. simpl in *.
    intros [H|H].
    + apply Miss. apply in_or_app. right. left. now symmetry.
    + apply NoDup_remove_2 in N. apply N. now rewrite app_nil_r.
Qed.

(** ** The cache holds the most recently used names *)

Lemma keys_cache_remove_eq key c :
  NoDup (keys c) -> keys (cache_remove key c) = List.remove string_dec key (keys c).
Proof.
  induction c as [|[k v] c IH]; [reflexivity|].
  cbn [keys map fst cache_remove List.remove]. intros N.
  inversion N as [|? ? Hk Nc]; subst.
  destruct (String.eqb_spec k key) as [->|D].
  - destruct (string_dec key key) as [_|F]; [|now elim F].
    symmetry. now apply notin_remove.
  - destruct (string_dec key k) as [E|_]; [now elim D|].
    cbn [map fst]. f_equal. now apply IH.
Qed.

Lemma keys_removelast_eq c : keys (removelast c) = removelast (keys c).
Proof.
  induction c as [|e [|e' c] IH]; [reflexivity | reflexivity |].
  change (keys (e :: removelast (e' :: c)) = fst e :: removelast (keys (e' :: c))).
  cbn [keys map]. f_equal. exact IH.
Qed.

Lemma In_firstn (x : string) k l : In x (firstn k l) -> In x l.
Proof.
  revert l. induction k as [|k IH]; intros [|y l]; cbn [firstn In]; try tauto.
  intros [E|I]; [now left | right; now apply IH].
Qed.

Lemma NoDup_firstn k (l : list string) : NoDup l -> NoDup (firstn k l).
Proof.
  revert l. induction k as [|k IH]; intros l N; [constructor|].
  destruct N as [|y l Hy N]; [constructor|]. cbn [firstn].
  constructor; [|now apply IH]. intros I. apply Hy. now apply (In_firstn y k).
Qed.

Lemma firstn_remove_outside (x : string) k l :
  ~ In x (firstn k l) ->
  firstn k (List.remove string_dec x l) = firstn k l.
Proof.
  revert l. induction k as [|k IH]; intros [|y l]; try reflexivity.
  cbn [firstn List.remove]. intros N.
  destruct (string_dec x y) as [->|D]; [elim N; now left|].
  cbn [firstn]. f_equal. apply IH. intros I. apply N. now right.
Qed.

Lemma remove_firstn_inside (x : string) k l :
  NoDup l -> In x (firstn (S k) l) ->
  List.remove string_dec x (firstn (S k) l) = firstn k (List.remove string_dec x l).
Proof.
  revert k. induction l as [|y l IH]; intros k N I; [destruct I|].
  inversion N as [|? ? Hy Nl]; subst.
  cbn [firstn List.remove]. destruct (string_dec x y) as [->|D].
  - rewrite (notin_remove string_dec l y Hy).
    apply notin_remove. intros F. apply Hy. now apply (In_firstn y k).
  - destruct I as [E|I]; [now elim D|].
    destruct k as [|k]; [destruct I|].
    cbn [firstn]. f_equal. now apply IH.
Qed.

Lemma In_firstn_S (x : string) k l : In x (firstn k l) -> In x (firstn (S k) l).
Proof.
  revert l. induction k as [|k IH]; intros [|y l]; cbn [firstn In]; try tauto.
  intros [E|I]; [now left | right; now apply IH].
Qed.

Lemma firstn_drop_last (k : nat) (l : list string) :
  firstn k l
  = if (S k <=? length (firstn (S k) l))%nat
    then removelast (firstn (S k) l)
    else firstn (S k) l.
Proof.
  rewrite length_firstn.
  destruct (Nat.leb_spec (S k) (Nat.min (S k) (length l))) as [Full|Short].
  - symmetry. apply removelast_firstn. lia.
  - rewrite !firstn_all2 by lia. reflexivity.
Qed.

Lemma NoDup_use recent ontology_name : NoDup recent -> NoDup (use recent ontology_name).
Proof.
  intros N. constructor; [apply remove_In|].
  induction N as [|y l Hy N IH]; [constructor|].
  cbn [List.remove]. destruct (string_dec ontology_name y); [exact IH|].
  constructor; [|exact IH]. intros I. apply in_remove in I. now apply Hy.
Qed.

Lemma keys_after_load self gcs ontology_name st recent :
  NoDup recent ->
  keys (cache st) = firstn maxsize recent ->
  keys (cache (snd (load self gcs ontology_name st)))
  = firstn maxsize (use recent ontology_name).
Proof.
  intros N K. rewrite cache_after_load.
  assert (NoDup (keys (cache st))) as Nk.
  { rewrite K. now apply NoDup_firstn. }
  unfold use. change maxsize with (S 9) in *. rewrite firstn_cons.
  destruct (cache_get ontology_name (cache st)) as [cached|] eqn:G.
  - unfold cache_touch. cbn [keys map fst]. f_equal.
    fold (keys (cache_remove ontology_name (cache st))).
    rewrite keys_cache_remove_eq by exact Nk. rewrite K.
    apply remove_firstn_inside; [exact N|].
    rewrite <- K. now apply (cache_get_In _ _ cached).
  - destruct (load_body_returns self gcs ontology_name st) as [ontology ->].
    unfold cache_store. rewrite G. cbn [keys map fst]. f_equal.
    apply cache_get_None in G. rewrite K in G.
    rewrite firstn_remove_outside by (intros I; apply G; now apply In_firstn_S).
    rewrite (firstn_drop_last 9 recent), <- K.
    unfold keys at 1. rewrite length_map.
    change maxsize with (S 9).
    destruct (S 9 <=? length (cache st))%nat; [|reflexivity].
    apply keys_removelast_eq.
Qed.

(** After any sequence of loads on a fresh loader, the cache holds the 10
    most recently used names, the most recent first: the entry that a new
    name pushes out is the least recently used one. *)
Lemma cache_is_most_recent self requests :
  keys (cache (loads self requests initial))
  = firstn maxsize (recency (names requests)).
Proof.
  unfold recency.
  assert (forall st recent,
             NoDup recent ->
             keys (cache st) = firstn maxsize recent ->
             keys (cache (loads self requests st))
             = firstn maxsize (fold_left use (names requests) recent)) as General.
  { induction requests as [|[gcs ontology_name] requests IH]; intros st recent N K.
    - exact K.
    - cbn [loads names map snd fold_left]. apply IH.
      + now apply NoDup_use.
      + now apply keys_after_load. }
  apply General; [constructor | reflexivity].
Qed.

Lemma reachable_loads self requests st :
  reachable self st -> reachable self (loads self requests st).
Proof.
  revert st. induction requests as [|[gcs ontology_name] requests IH]; intros st R.
  - exact R.
  - simpl. apply IH. now constructor.
Qed.

Lemma load_memoized_lru_witness :
  fst (load online (bucket_of (Text (Ok (PyDict [("name", PyStr "b")]))) ["a.json"]) "a"
         (loads online [(empty_bucket, "b"); (unreachable_bucket, "a")]
                (snd (load online empty_bucket "a" initial))))
  = Ok _get_default_ontology
  /\ exists ontology st1,
       load online empty_bucket "n10" ten_loaded = (Ok ontology, st1)
       /\ cache st1 = ("n10", ontology) :: removelast (cache ten_loaded)
       /\ cache_get "n0" (cache st1) = None.
Proof.
  split.
  - apply (proj1 (load_memoized_lru online initial (reach_initial online))
             empty_bucket "a" _get_default_ontology
             (snd (load online empty_bucket "a" initial))
             [(empty_bucket, "b"); (unreachable_bucket, "a")]).
    + reflexivity.
    + vm_compute. lia.
  - apply (proj2 (load_memoized_lru online ten_loaded
                    (reachable_loads online _ initial (reach_initial online)))
             empty_bucket "n10" (removelast (cache ten_loaded))
             ("n0", _get_default_ontology)).
    + reflexivity.
    + reflexivity.
    + reflexivity.
Defined.

(* ================================================================== *)
(** * Properties of the endpoint *)
(* ================================================================== *)

Section Endpoint.

Context {World : Type}.
Variable services : Main.Services World.

(** Case analysis on the next step of assembling the response. *)
Ltac step :=
  match goal with
  | |- context [Main.uuid4 services ?w] => destruct (Main.uuid4 services w) eqn:?
  | |- context [Main.utcnow_isoformat services ?w] =>
      destruct (Main.utcnow_isoformat services w) eqn:?
  | |- context [subscript ?a ?b] => destruct (subscript a b) eqn:?
  | |- context [py_len ?a] => destruct (py_len a) eqn:?
  end;
  cbn beta iota delta [Main.env Main.calls fst snd].

Lemma verify_post request p :
  Main.method request = "POST" ->
  Main.verify services request p
  = match Main.verify_try services request (Main.get_cors_headers request) p with
    | (Ok response, p1) => (response, p1)
    | (Raise e, p1) => (Main.error_response e (Main.get_cors_headers request), p1)
    end.
Proof. intros M. unfold Main.verify. rewrite M. reflexivity. Qed.

(** Assembling the response makes no call; it ends in a 200 response with
    the given headers or in an exception. *)
Lemma build_response_outcome extracted_data verification_result ontology cors p :
  exists w,
    (exists response,
        Main.build_response services extracted_data verification_result ontology cors p
        = (Ok response, Main.mkProcess w (Main.calls p))
        /\ Main.status response = 200%Z /\ Main.headers response = cors)
    \/ (exists e,
        Main.build_response services extracted_data verification_result ontology cors p
        = (Raise e, Main.mkProcess w (Main.calls p))).
Proof.
  destruct p as [w0 trace].
  unfold Main.build_response, Main.bindM, Main.raise_from, Main.library, Main.ret.
  cbn [Main.env Main.calls].
  repeat step;
    eexists; ((left; eexists; split; [reflexivity | split; reflexivity])
              || (right; eexists; reflexivity)).
Qed.

(** Whether assembling raises, and what, depends on the values and on the
    environment only. *)
Lemma build_response_raises extracted_data verification_result ontology
    cors cors' p p' e :
  Main.env p = Main.env p' ->
  fst (Main.build_response services extracted_data verification_result ontology cors p)
    = Raise e ->
  fst (Main.build_response services extracted_data verification_result ontology cors' p')
    = Raise e.
Proof.
  destruct p as [w trace], p' as [w' trace']. cbn [Main.env]. intros <-.
  unfold Main.build_response, Main.bindM, Main.raise_from, Main.library, Main.ret.
  cbn [Main.env Main.calls].
  repeat step; cbn [fst]; try discriminate; trivial.
Qed.

(** Case analysis on the next test or call of the [try] block. *)
Ltac walk :=
  match goal with
  | |- context [py_get ?a ?b ?c] => destruct (py_get a b c) eqn:?
  | |- context [truthy ?a] => destruct (truthy a) eqn:?
  | |- context [Main.ontology_loader_load services ?a ?w] =>
      destruct (Main.ontology_loader_load services a w) as [[?|?] ?] eqn:?
  | |- context [Main.llm_parser_parse services ?a ?b ?w] =>
      destruct (Main.llm_parser_parse services a b w) as [[?|?] ?] eqn:?
  | |- context [Main.smt_verifier_verify services ?a ?b ?w] =>
      destruct (Main.smt_verifier_verify services a b w) as [[?|?] ?] eqn:?
  | |- context [Main.build_response services ?a ?b ?c ?d ?p] =>
      destruct (build_response_outcome a b c d p) as [? [[? [-> [? ?]]] | [? ->]]]
  end;
  cbn beta iota delta [Main.env Main.calls fst snd negb].

Ltac enter_try :=
  unfold Main.verify_try, Main.bindM, Main.raise_from, Main.invoke, Main.ret;
  cbn beta iota delta [Main.env Main.calls fst snd negb].

(** Every response carries the headers computed from the request. *)
Lemma verify_headers request p :
  Main.headers (fst (Main.verify services request p)) = Main.get_cors_headers request.
Proof.
  unfold Main.verify.
  destruct (Main.method request =? "OPTIONS"); [reflexivity|].
  destruct (negb (Main.method request =? "POST")); [reflexivity|].
  enter_try. repeat walk; cbn; trivial.
Qed.

Lemma allow_listed origin :
  existsb (String.eqb origin) Main.ALLOWED_ORIGINS = true
  <-> In origin Main.ALLOWED_ORIGINS.
Proof.
  rewrite existsb_exists. split.
  - intros [x [I E]]. apply String.eqb_eq in E. now subst.
  - intros I. exists origin. split; [exact I | apply String.eqb_refl].
Qed.

(** C5. On every response of the handler, whatever the verb, the body and
    the behaviour of the components, Access-Control-Allow-Origin is the
    request's Origin if that is one of the four allow-listed origins, and
    https://aare.ai otherwise, also when the request has no Origin. *)
Theorem cors_allow_origin request p :
  Main.header "Access-Control-Allow-Origin"
              (Main.headers (fst (Main.verify services request p)))
  = Some (expected_allow_origin request)
  /\ length Main.ALLOWED_ORIGINS = 4.
Proof.
  split; [|reflexivity].
  rewrite verify_headers.
  unfold Main.get_cors_headers, Main.headers_get_Origin, expected_allow_origin.
  cbn [Main.header]. f_equal.
  destruct (Main.Origin request) as [origin|]; [|reflexivity].
  destruct (in_dec string_dec origin Main.ALLOWED_ORIGINS) as [I|N].
  - apply allow_listed in I. now rewrite I.
  - destruct (existsb (String.eqb origin) Main.ALLOWED_ORIGINS) eqn:E; [|reflexivity].
    apply allow_listed in E. now elim N.
Qed.

(** C9. A POST whose body parses to a falsy JSON value is answered 400,
    Invalid JSON in request body, without any call to the components: the
    answer given to the same request with an unparseable body. *)
Theorem falsy_body_invalid_json request p json :
  Main.method request = "POST" ->
  Main.json_body request = Some json ->
  truthy json = false ->
  Main.verify services request p = (invalid_json request, p)
  /\ Main.verify services (Main.mkRequest "POST" (Main.Origin request) None) p
     = (invalid_json request, p).
Proof.
  intros M B F. split.
  - rewrite (verify_post _ _ M). unfold Main.verify_try, Main.get_json.
    rewrite B, F. reflexivity.
  - reflexivity.
Qed.

(** C3, amended. A POST whose body parses as a non-empty JSON object in
    which [llm_output] is missing or empty (an empty string, or any other
    falsy value) is answered 400, llm_output is required, without any call
    to the components. *)
Theorem llm_output_required_in_object request p entries :
  Main.method request = "POST" ->
  Main.json_body request = Some (PyDict entries) ->
  entries <> [] ->
  dict_get "llm_output" entries = None
  \/ (exists llm_output,
        dict_get "llm_output" entries = Some llm_output /\ truthy llm_output = false) ->
  Main.verify services request p = (llm_output_required request, p).
Proof.
  intros M B NE L. rewrite (verify_post _ _ M).
  unfold Main.verify_try, Main.get_json. rewrite B.
  destruct entries as [|entry entries]; [now elim NE|].
  cbn [truthy length Nat.eqb negb].
  unfold Main.bindM, Main.raise_from, py_get.
  destruct L as [-> | [llm_output [-> F]]].
  - reflexivity.
  - rewrite F. reflexivity.
Qed.

(** C6. For a POST that passes both checks, an exception raised while the
    ontology is loaded, the text is parsed, the constraints are verified or
    the response is assembled does not leave the handler: the answer is a
    500 response whose body holds the exception's message under error and
    the name of its type under type. *)
Theorem exception_becomes_500 request p e :
  raised_in_pipeline services request (Main.env p) e ->
  fst (Main.verify services request p)
    = Main.error_response e (Main.get_cors_headers request)
  /\ Main.status (fst (Main.verify services request p)) = 500%Z
  /\ Main.body (fst (Main.verify services request p))
     = Main.Dumps (PyDict [("error", PyStr (exn_str e)); ("type", PyStr (exn_type e))]).
Proof.
  intros [entries llm_output ontology_name M B L O TB TL R].
  assert (fst (Main.verify services request p)
          = Main.error_response e (Main.get_cors_headers request)) as E.
  { rewrite (verify_post _ _ M). unfold Main.verify_try. rewrite B, TB.
    cbn [negb]. unfold Main.bindM at 1, Main.raise_from at 1. rewrite L.
    unfold Main.bindM at 1, Main.raise_from at 1. rewrite O, TL. cbn [negb].
    unfold Main.bindM, Main.invoke.
    destruct R as [w1 RL | ontology w1 w2 RL RP | ontology w1 x w2 w3 RL RP RV
                  | ontology w1 x w2 vr w3 RL RP RV RA].
    - rewrite RL. reflexivity.
    - rewrite RL. cbn [Main.env]. rewrite RP. reflexivity.
    - rewrite RL. cbn [Main.env]. rewrite RP. cbn [Main.env]. rewrite RV. reflexivity.
    - rewrite RL. cbn [Main.env]. rewrite RP. cbn [Main.env]. rewrite RV.
      match goal with
      | |- context [Main.build_response services ?a ?b ?c ?d ?q] =>
          pose proof (build_response_raises a b c [] d (Main.mkProcess w3 []) q e
                        eq_refl RA) as RA';
          destruct (Main.build_response services a b c d q) as [[r|e'] q']
      end.
      + discriminate.
      + cbn [fst] in RA'. injection RA' as ->. reflexivity. }
  rewrite E. repeat split.
Qed.

(** C10, amended. A POST whose body is a JSON object with a truthy
    [llm_output] that is not a string is not answered 400: the handler calls
    [load] with the ontology name, and whenever that call returns an
    ontology, it calls the extractor with the value of [llm_output] and that
    ontology. *)
Theorem truthy_llm_output_proceeds request p entries llm_output :
  Main.method request = "POST" ->
  Main.json_body request = Some (PyDict entries) ->
  dict_get "llm_output" entries = Some llm_output ->
  truthy llm_output = true ->
  is_str llm_output = false ->
  Main.status (fst (Main.verify services request p)) <> 400%Z
  /\ exists rest,
       Main.calls (snd (Main.verify services request p))
       = Main.calls p ++ Main.Load (ontology_name_of entries) :: rest
       /\ forall ontology w1,
            Main.ontology_loader_load services (ontology_name_of entries) (Main.env p)
              = (Ok ontology, w1) ->
            exists rest', rest = Main.Parse llm_output ontology :: rest'.
Proof.
  intros M B L T _.
  assert (exists response p',
             Main.verify services request p = (response, p')
             /\ Main.status response <> 400%Z
             /\ exists rest,
                  Main.calls p'
                  = Main.calls p ++ Main.Load (ontology_name_of entries) :: rest
                  /\ forall ontology w1,
                       Main.ontology_loader_load services (ontology_name_of entries)
                                                 (Main.env p)
                         = (Ok ontology, w1) ->
                       exists rest', rest = Main.Parse llm_output ontology :: rest')
    as (response & p' & -> & S & C); [|split; assumption].
  rewrite (verify_post _ _ M).
  unfold Main.verify_try, Main.get_json. rewrite B.
  destruct entries as [|entry entries]; [discriminate|].
  set (object := entry :: entries) in *.
  cbn [truthy length Nat.eqb negb object].
  unfold Main.bindM at 1, Main.raise_from at 1, py_get at 1. rewrite L.
  unfold Main.bindM at 1, Main.raise_from at 1, py_get at 1.
  fold (ontology_name_of object). rewrite T. cbn [negb].
  unfold Main.bindM, Main.invoke.
  repeat walk; do 2 eexists; (split; [reflexivity|]);
    cbn [Main.status Main.error_response fst snd Main.calls];
    (split; [try discriminate; try congruence|]);
    repeat rewrite <- app_assoc; cbn [app].
  all: eexists; (split; [reflexivity|]).
  all: intros ? ? Eq; try discriminate.
  all: injection Eq as <- <-; eexists; reflexivity.
Qed.

End Endpoint.

(* ------------------------------------------------------------------ *)
(** ** The endpoint of a process without storage client *)

(** Without a client, [load] returns the default ontology for every name
    and from every state: what [offline_load] returns for a string. *)
Lemma offline_load_agrees gcs ontology_name st :
  reachable offline st ->
  fst (load offline gcs ontology_name st)
  = fst (offline_load (PyStr ontology_name) tt).
Proof.
  intros R. cbn [offline_load hashable fst].
  destruct (load_returns offline gcs ontology_name st) as [ontology E].
  rewrite E. f_equal.
  apply (load_value offline (fun o => o = _get_default_ontology)) in E;
    [exact E | | exact R].
  intros gcs' requested st' o B. cbn in B. now injection B as <-.
Qed.

Lemma falsy_body_invalid_json_witness :
  Main.verify offline_services (post (PyDict [])) start
    = (invalid_json (post (PyDict [])), start)
  /\ Main.verify offline_services (post (PyInt 0)) start
    = (invalid_json (post (PyInt 0)), start).
Proof.
  split.
  - apply (falsy_body_invalid_json offline_services (post (PyDict [])) start (PyDict []));
      reflexivity.
  - apply (falsy_body_invalid_json offline_services (post (PyInt 0)) start (PyInt 0));
      reflexivity.
Defined.

(** C3, as stated, fails: the body [{}] parses as JSON and has no
    [llm_output], and is answered Invalid JSON in request body. *)
Lemma empty_object_is_invalid_json :
  ~ missing_llm_output_as_stated offline_services.
Proof.
  intros H.
  specialize (H (post (PyDict [])) start (PyDict []) eq_refl eq_refl (or_introl eq_refl)).
  discriminate H.
Qed.

Lemma llm_output_required_in_object_witness :
  Main.verify offline_services (post (PyDict [("ontology", PyStr "hipaa-v1")])) start
    = (llm_output_required (post (PyDict [("ontology", PyStr "hipaa-v1")])), start)
  /\ Main.verify offline_services (post (PyDict [("llm_output", PyStr "")])) start
    = (llm_output_required (post (PyDict [("llm_output", PyStr "")])), start).
Proof.
  split.
  - apply (llm_output_required_in_object offline_services
             (post (PyDict [("ontology", PyStr "hipaa-v1")])) start
             [("ontology", PyStr "hipaa-v1")]).
    + reflexivity.
    + reflexivity.
    + discriminate.
    + left. reflexivity.
  - apply (llm_output_required_in_object offline_services
             (post (PyDict [("llm_output", PyStr "")])) start
             [("llm_output", PyStr "")]).
    + reflexivity.
    + reflexivity.
    + discriminate.
    + right. exists (PyStr ""). split; reflexivity.
Defined.

Lemma exception_becomes_500_witness :
  (* loading: a name that cannot be hashed *)
  fst (Main.verify offline_services unhashable_request start)
    = Main.error_response (TypeError "unhashable type: 'list'")
        (Main.get_cors_headers unhashable_request)
  (* extracting *)
  /\ fst (Main.verify failing_parser dti_request start)
    = Main.error_response (ValueError "could not convert string to float")
        (Main.get_cors_headers dti_request)
  (* assembling *)
  /\ fst (Main.verify terse_solver dti_request start)
    = Main.error_response (KeyError "violations") (Main.get_cors_headers dti_request).
Proof.
  split; [|split].
  - apply (exception_becomes_500 offline_services unhashable_request start
             (TypeError "unhashable type: 'list'")).
    eapply raised_in_pipeline_intro; try reflexivity.
    eapply raised_loading. reflexivity.
  - apply (exception_becomes_500 failing_parser dti_request start
             (ValueError "could not convert string to float")).
    eapply raised_in_pipeline_intro; try reflexivity.
    eapply raised_extracting; reflexivity.
  - apply (exception_becomes_500 terse_solver dti_request start (KeyError "violations")).
    eapply raised_in_pipeline_intro; try reflexivity.
    eapply raised_assembling; reflexivity.
Defined.

(** C10, as stated, fails: with the body
    [{"llm_output": 7, "ontology": []}] the call to [load] raises, and the
    extractor is never called. *)
Lemma unhashable_ontology_stops_before_extraction :
  ~ truthy_llm_output_as_stated offline_services.
Proof.
  intros H.
  destruct (H unhashable_request start
              [("llm_output", PyInt 7); ("ontology", PyList [])] (PyInt 7)
              eq_refl eq_refl eq_refl eq_refl eq_refl)
    as (_ & _ & ontology & I).
  vm_compute in I. destruct I as [I|[]]. discriminate I.
Qed.

Lemma truthy_llm_output_proceeds_witness :
  Main.status (fst (Main.verify offline_services number_request start)) <> 400%Z
  /\ exists rest,
       Main.calls (snd (Main.verify offline_services number_request start))
       = Main.calls start
         ++ Main.Load (ontology_name_of [("llm_output", PyInt 7)]) :: rest
       /\ forall ontology w1,
            Main.ontology_loader_load offline_services
              (ontology_name_of [("llm_output", PyInt 7)]) (Main.env start)
              = (Ok ontology, w1) ->
            exists rest', rest = Main.Parse (PyInt 7) ontology :: rest'.
Proof.
  apply (truthy_llm_output_proceeds offline_services number_request start
           [("llm_output", PyInt 7)] (PyInt 7)); reflexivity.
Defined.

(** The run of [number_request]: 200, after the three calls. *)
Example number_request_run :
  Main.status (fst (Main.verify offline_services number_request start)) = 200%Z
  /\ Main.calls (snd (Main.verify offline_services number_request start))
     = [Main.Load (PyStr "mortgage-compliance-v1");
        Main.Parse (PyInt 7) _get_default_ontology;
        Main.Verify (PyDict []) _get_default_ontology].
Proof. split; reflexivity. Qed.

(* ================================================================== *)
(** * Further properties of the ontology loader *)
(* ================================================================== *)

(** X1. On a JSON object, [_validate_ontology] looks at the keys only: it
    returns the object unchanged when name, version, constraints and
    extractors are all present, whatever their values, and otherwise raises
    ValueError naming the first of them, in that order, that is missing. *)
Theorem validate_ontology_first_missing entries :
  _validate_ontology (PyDict entries)
  = match first_missing entries with
    | None => Ok (PyDict entries)
    | Some field => Raise (ValueError ("Invalid ontology: missing " ++ field))
    end.
Proof.
  unfold _validate_ontology, first_missing, required_fields.
  cbn [check_fields py_in bind find].
  destruct (dict_has "name" entries); cbn [negb bind]; [|reflexivity].
  destruct (dict_has "version" entries); cbn [negb bind]; [|reflexivity].
  destruct (dict_has "constraints" entries); cbn [negb bind]; [|reflexivity].
  destruct (dict_has "extractors" entries); reflexivity.
Qed.

Lemma check_fields_accepted document :
  check_fields required_fields document = Ok tt <-> accepted document.
Proof.
  unfold required_fields.
  assert (forall fields,
             check_fields fields document = Ok tt
             <-> match document with
                 | PyDict entries =>
                     forall field, In field fields -> dict_has field entries = true
                 | PyList items => forall field, In field fields -> In (PyStr field) items
                 | PyStr s => forall field, In field fields -> str_contains field s = true
                 | _ => fields = []
                 end) as General.
  { induction fields as [|f fields IH].
    - destruct document; cbn; split; trivial; intros _ field [].
    - cbn [check_fields]. destruct document as [| | | |s|items|entries];
        cbn [py_in bind]; try (split; [discriminate | discriminate]).
      + destruct (str_contains f s) eqn:E.
        * rewrite IH. split.
          -- intros H field [<-|I]; [exact E | now apply H].
          -- intros H field I. apply H. now right.
        * split; [discriminate|]. intros H.
          rewrite (H f (or_introl eq_refl)) in E. discriminate.
      + destruct (existsb _ items) eqn:E.
        * rewrite IH. split.
          -- intros H field [<-|I]; [|now apply H].
             apply existsb_exists in E. destruct E as [x [Ix Ex]].
             destruct x; try discriminate. apply String.eqb_eq in Ex. now subst.
          -- intros H field I. apply H. now right.
        * split; [discriminate|]. intros H.
          assert (existsb (fun x => match x with PyStr s => s =? f | _ => false end)
                          items = true) as T.
          { apply existsb_exists. exists (PyStr f).
            split; [apply H; now left | apply String.eqb_refl]. }
          rewrite T in E. discriminate.
      + destruct (dict_has f entries) eqn:E.
        * rewrite IH. split.
          -- intros H field [<-|I]; [exact E | now apply H].
          -- intros H field I. apply H. now right.
        * split; [discriminate|]. intros H.
          rewrite (H f (or_introl eq_refl)) in E. discriminate. }
  rewrite General. unfold accepted.
  destruct document; split; trivial; try discriminate; intros [].
Qed.

(** X2. [_validate_ontology] returns exactly on an object with the four
    keys, an array holding the four names as strings, or a string in which
    the four names occur, and then returns its argument unchanged; on null,
    a boolean or a number it raises. *)
Theorem validate_ontology_accepts document :
  (_validate_ontology document = Ok document <-> accepted document)
  /\ (forall validated, _validate_ontology document = Ok validated ->
                        validated = document).
Proof.
  unfold _validate_ontology. rewrite <- check_fields_accepted.
  destruct (check_fields required_fields document) as [[]|e]; cbn [bind].
  - split; [tauto|]. intros validated E. now injection E.
  - split; [split; discriminate | discriminate].
Qed.

Lemma validate_ontology_accepts_witness :
  _validate_ontology hipaa_document = Ok hipaa_document
  /\ accepted array_of_field_names.
Proof.
  split.
  - apply (proj1 (validate_ontology_accepts hipaa_document)).
    intros field [<-|[<-|[<-|[<-|[]]]]]; reflexivity.
  - apply (proj1 (validate_ontology_accepts array_of_field_names)). reflexivity.
Defined.

(** X3. On a cache miss with a storage client, when the object
    [<name>.json] downloads, decodes to a JSON object and has the four
    keys, [load] returns that object unchanged, stores it in the cache under
    the name, asks the store for that one object and logs nothing. *)
Theorem load_fetches_valid_document self gcs ontology_name st text entries :
  storage_client self = true ->
  cache_get ontology_name (cache st) = None ->
  download_as_text gcs (bucket_name self) (object_of ontology_name) = Ok text ->
  json_loads text = Ok (PyDict entries) ->
  (forall field, In field required_fields -> dict_has field entries = true) ->
  fst (load self gcs ontology_name st) = Ok (PyDict entries)
  /\ cache_get ontology_name (cache (snd (load self gcs ontology_name st)))
     = Some (PyDict entries)
  /\ downloads (snd (load self gcs ontology_name st))
     = object_of ontology_name :: downloads st
  /\ log (snd (load self gcs ontology_name st)) = log st.
Proof.
  intros C Miss D J Fields. unfold object_of in *.
  assert (_validate_ontology (PyDict entries) = Ok (PyDict entries)) as V.
  { unfold _validate_ontology.
    now rewrite (proj2 (check_fields_accepted (PyDict entries)) Fields). }
  assert (load self gcs ontology_name st
          = (Ok (PyDict entries),
             mkState (cache_store ontology_name (PyDict entries) (cache st))
                     ((ontology_name ++ ".json")%string :: downloads st) (log st)))
    as ->.
  { unfold load. rewrite Miss. unfold load_body, load_try.
    rewrite C, D. cbn [bind]. rewrite J. cbn [bind]. rewrite V. reflexivity. }
  cbn [fst snd cache downloads log]. repeat split.
  unfold cache_store. rewrite Miss. cbn [cache_get]. now rewrite String.eqb_refl.
Qed.

Lemma load_fetches_valid_document_witness :
  fst (load online (hipaa_bucket ["hipaa-v1.json"]) "hipaa-v1" initial)
    = Ok hipaa_document
  /\ cache_get "hipaa-v1"
       (cache (snd (load online (hipaa_bucket ["hipaa-v1.json"]) "hipaa-v1" initial)))
     = Some hipaa_document
  /\ downloads (snd (load online (hipaa_bucket ["hipaa-v1.json"]) "hipaa-v1" initial))
     = object_of "hipaa-v1" :: downloads initial
  /\ log (snd (load online (hipaa_bucket ["hipaa-v1.json"]) "hipaa-v1" initial))
     = log initial.
Proof.
  apply (load_fetches_valid_document online (hipaa_bucket ["hipaa-v1.json"])
           "hipaa-v1" initial (Text (Ok hipaa_document))); try reflexivity.
  intros field [<-|[<-|[<-|[<-|[]]]]]; reflexivity.
Defined.

(** X4. Whatever the store and the history of the loader, a JSON object
    returned by [load] has the keys name, version, constraints and
    extractors. *)
Theorem load_object_has_required_fields self gcs ontology_name st entries :
  reachable self st ->
  fst (load self gcs ontology_name st) = Ok (PyDict entries) ->
  forall field, In field required_fields -> dict_has field entries = true.
Proof.
  intros R L.
  apply (check_fields_accepted (PyDict entries)).
  now apply (load_result_validated self gcs ontology_name st).
Qed.

Lemma load_object_has_required_fields_witness :
  dict_has "extractors"
    [("name", PyStr "hipaa-v1"); ("version", PyStr "0.1.0");
     ("constraints", PyList []); ("extractors", PyDict [])] = true.
Proof.
  apply (load_object_has_required_fields online (hipaa_bucket []) "hipaa-v1"
           (snd (load online empty_bucket "other" initial))).
  - apply reach_load. apply reach_initial.
  - reflexivity.
  - right. right. right. left. reflexivity.
Defined.

Lemma touch_permutes key cached c :
  cache_get key c = Some cached -> Permutation (cache_touch key cached c) c.
Proof.
  unfold cache_touch. induction c as [|[k v] c IH]; [discriminate|].
  cbn [cache_get cache_remove]. destruct (String.eqb_spec k key) as [->|D].
  - intros E. injection E as ->. apply Permutation_refl.
  - intros G. apply perm_trans with ((k, v) :: (key, cached) :: cache_remove key c).
    + apply perm_swap.
    + apply perm_skip. now apply IH.
Qed.

(** X5. A load of a cached name answers from the cache without looking at
    the store: it returns the cached ontology, keeps every entry of the
    cache (only their order changes), asks nothing of the store and logs
    nothing. *)
Theorem hit_reorders_only self gcs ontology_name st cached :
  cache_get ontology_name (cache st) = Some cached ->
  fst (load self gcs ontology_name st) = Ok cached
  /\ Permutation (cache (snd (load self gcs ontology_name st))) (cache st)
  /\ downloads (snd (load self gcs ontology_name st)) = downloads st
  /\ log (snd (load self gcs ontology_name st)) = log st.
Proof.
  intros G. rewrite (load_hit self gcs ontology_name st cached G).
  cbn [fst snd set_cache cache downloads log]. repeat split.
  now apply touch_permutes.
Qed.

Lemma hit_reorders_only_witness :
  fst (load online unreachable_bucket "n3" ten_loaded) = Ok _get_default_ontology
  /\ Permutation (cache (snd (load online unreachable_bucket "n3" ten_loaded)))
                 (cache ten_loaded)
  /\ downloads (snd (load online unreachable_bucket "n3" ten_loaded))
     = downloads ten_loaded
  /\ log (snd (load online unreachable_bucket "n3" ten_loaded)) = log ten_loaded.
Proof.
  apply (hit_reorders_only online unreachable_bucket "n3" ten_loaded). reflexivity.
Defined.

Lemma downloads_after_load self gcs ontology_name st :
  downloads (snd (load self gcs ontology_name st)) = downloads st
  \/ downloads (snd (load self gcs ontology_name st))
     = object_of ontology_name :: downloads st.
Proof.
  unfold load, object_of. destruct (cache_get ontology_name (cache st)); [now left|].
  unfold load_body.
  destruct (load_try self gcs ontology_name) as [[o|]|e];
    [ | | destruct (is_NotFound e)];
    destruct (storage_client self); cbn; auto.
Qed.

(** X6. Over any sequence of loads on a fresh loader, the store is asked
    only for objects [<name>.json] of names that were requested, and at most
    once per request. *)
Theorem loader_requests_only_named_objects self requests :
  incl (downloads (loads self requests initial)) (map object_of (names requests))
  /\ length (downloads (loads self requests initial)) <= length requests.
Proof.
  assert (forall st,
             incl (downloads (loads self requests st))
                  (map object_of (names requests) ++ downloads st)
             /\ length (downloads (loads self requests st))
                <= length requests + length (downloads st)) as General.
  { induction requests as [|[gcs ontology_name] requests IH]; intros st.
    - split; [apply incl_refl | reflexivity].
    - cbn [loads names map snd length].
      destruct (IH (snd (load self gcs ontology_name st))) as [I L].
      destruct (downloads_after_load self gcs ontology_name st) as [E|E];
        rewrite E in I, L; split.
      + intros x Ix. apply I in Ix. apply in_app_or in Ix.
        destruct Ix as [Ix|Ix]; [right; apply in_or_app; now left
                                |right; apply in_or_app; now right].
      + lia.
      + intros x Ix. apply I in Ix. apply in_app_or in Ix.
        destruct Ix as [Ix|[<-|Ix]];
          [right; apply in_or_app; now left
          |now left
          |right; apply in_or_app; now right].
      + cbn [length] in L. lia. }
  destruct (General initial) as [I L]. cbn [downloads initial length] in I, L.
  rewrite app_nil_r in I. split; [exact I | lia].
Qed.

Lemma load_body_result self gcs ontology_name st st' :
  fst (load_body self gcs ontology_name st) = fst (load_body self gcs ontology_name st').
Proof.
  unfold load_body.
  destruct (load_try self gcs ontology_name) as [[o|]|e];
    [ | | destruct (is_NotFound e)]; reflexivity.
Qed.

Lemma downloads_without_client self gcs ontology_name st :
  storage_client self = false ->
  downloads (snd (load self gcs ontology_name st)) = downloads st.
Proof.
  intros C. unfold load. destruct (cache_get ontology_name (cache st)); [reflexivity|].
  unfold load_body, load_try. rewrite C. reflexivity.
Qed.

(** X7. A loader whose [storage.Client()] raised at construction never asks
    anything of the store: after any sequence of loads, [load] returns the
    default ontology for every name, no download was made, and
    [list_available] returns the one name of the default ontology. *)
Theorem loader_without_client bucket env e gcs ontology_name requests :
  fst (load (init bucket env (Raise e)) gcs ontology_name
            (loads (init bucket env (Raise e)) requests initial))
    = Ok _get_default_ontology
  /\ downloads (loads (init bucket env (Raise e)) requests initial) = []
  /\ fst (list_available (init bucket env (Raise e)) gcs
            (loads (init bucket env (Raise e)) requests initial))
     = Ok ["mortgage-compliance-v1"].
Proof.
  set (self := init bucket env (Raise e)).
  assert (storage_client self = false) as C by reflexivity.
  split; [|split].
  - destruct (load_returns self gcs ontology_name (loads self requests initial))
      as [ontology E].
    rewrite E. f_equal.
    apply (load_value self (fun o => o = _get_default_ontology)) in E.
    + exact E.
    + intros gcs' requested st' o. unfold load_body, load_try. rewrite C.
      intros B. now injection B as <-.
    + apply reachable_loads. constructor.
  - assert (forall st, downloads (loads self requests st) = downloads st) as Same.
    { induction requests as [|[gcs' requested] requests IH]; intros st; [reflexivity|].
      cbn [loads]. rewrite IH. now apply downloads_without_client. }
    apply Same.
  - unfold list_available. rewrite C. reflexivity.
Qed.

(** When a load has returned, the name stays cached over further loads
    that involve at most 10 distinct names. *)
Lemma load_again self gcs ontology_name st ontology st1 requests :
  reachable self st ->
  load self gcs ontology_name st = (Ok ontology, st1) ->
  distinct (ontology_name :: names requests) <= maxsize ->
  cache_get ontology_name (cache (loads self requests st1)) = Some ontology.
Proof.
  intros R L Bound.
  set (others := nodup string_dec (List.remove string_dec ontology_name (names requests))).
  assert (retained others ontology_name ontology (cache (loads self requests st1)))
    as (G & _ & _); [|exact G].
  apply retained_loads.
  - now apply others_bound.
  - intros x I. destruct (string_dec x ontology_name) as [E|D]; [now left|].
    right. unfold others. rewrite nodup_In. now apply in_in_remove.
  - destruct (load_caches _ _ _ _ _ _ L) as [G B].
    split; [exact G | split].
    + rewrite B. intros x [].
    + replace st1 with (snd (load self gcs ontology_name st)) by now rewrite L.
      apply (reachable_well_formed self). now constructor.
Qed.

(** X8. A failed fetch is remembered: when [load name] fell back to the
    default ontology because the fetch failed, then, as long as at most 10
    distinct names are involved, later loads of the name return the default
    ontology without asking the store again, even when the store now holds
    a valid document under that name. *)
Theorem failed_fetch_is_remembered self gcs ontology_name st requests gcs' :
  reachable self st ->
  cache_get ontology_name (cache st) = None ->
  fetch_fails self gcs ontology_name ->
  distinct (ontology_name :: names requests) <= maxsize ->
  fst (load self gcs' ontology_name
            (loads self requests (snd (load self gcs ontology_name st))))
    = Ok _get_default_ontology
  /\ downloads (snd (load self gcs' ontology_name
                       (loads self requests (snd (load self gcs ontology_name st)))))
     = downloads (loads self requests (snd (load self gcs ontology_name st))).
Proof.
  intros R Miss F Bound.
  assert (load self gcs ontology_name st
          = (Ok _get_default_ontology, snd (load self gcs ontology_name st))) as L.
  { unfold load. rewrite Miss.
    pose proof (load_body_default self gcs ontology_name st F) as B.
    destruct (load_body self gcs ontology_name st) as [[o|e] st1];
      cbn [fst] in B; [|discriminate].
    injection B as ->. reflexivity. }
  pose proof (load_again self gcs ontology_name st _ _ requests R L Bound) as G.
  rewrite (load_hit self gcs' ontology_name _ _ G). split; reflexivity.
Qed.

Lemma failed_fetch_is_remembered_witness :
  fst (load online (hipaa_bucket ["hipaa-v1.json"]) "hipaa-v1"
            (loads online [(empty_bucket, "gdpr-v1")]
                   (snd (load online unreachable_bucket "hipaa-v1" initial))))
    = Ok _get_default_ontology
  /\ downloads (snd (load online (hipaa_bucket ["hipaa-v1.json"]) "hipaa-v1"
                       (loads online [(empty_bucket, "gdpr-v1")]
                              (snd (load online unreachable_bucket "hipaa-v1" initial)))))
     = downloads (loads online [(empty_bucket, "gdpr-v1")]
                        (snd (load online unreachable_bucket "hipaa-v1" initial))).
Proof.
  apply (failed_fetch_is_remembered online unreachable_bucket "hipaa-v1" initial
           [(empty_bucket, "gdpr-v1")] (hipaa_bucket ["hipaa-v1.json"])).
  - constructor.
  - reflexivity.
  - eapply other_fetch_error; reflexivity.
  - vm_compute. lia.
Defined.

(** X9. In every state of the loader the cache holds at most 10 entries and
    no name twice. *)
Theorem cache_bounded self st :
  reachable self st ->
  length (cache st) <= 10 /\ NoDup (keys (cache st)).
Proof.
  intros R. destruct (reachable_well_formed self st R) as [N L]. now split.
Qed.

Lemma cache_bounded_witness :
  length (cache (loads online eleven_requests initial)) <= 10
  /\ NoDup (keys (cache (loads online eleven_requests initial))).
Proof.
  apply (cache_bounded online (loads online eleven_requests initial)).
  apply reachable_loads. constructor.
Defined.

(** X10. After any sequence of loads on a fresh loader, a name is cached
    exactly when it is among the 10 distinct names used most recently. *)
Theorem cached_iff_recently_used self requests ontology_name :
  (exists ontology,
      cache_get ontology_name (cache (loads self requests initial)) = Some ontology)
  <-> In ontology_name (firstn maxsize (recency (names requests))).
Proof.
  rewrite <- (cache_is_most_recent self requests). split.
  - intros [ontology G]. now apply (cache_get_In _ _ ontology).
  - intros I.
    destruct (cache_get ontology_name (cache (loads self requests initial)))
      as [ontology|] eqn:G; [now exists ontology|].
    apply cache_get_None in G. now elim G.
Qed.

Lemma cached_iff_recently_used_witness :
  (exists ontology,
      cache_get "n10" (cache (loads online eleven_requests initial)) = Some ontology)
  /\ ~ (exists ontology,
          cache_get "n0" (cache (loads online eleven_requests initial)) = Some ontology).
Proof.
  split.
  - apply (proj2 (cached_iff_recently_used online eleven_requests "n10")).
    vm_compute. now left.
  - intros H.
    apply (proj1 (cached_iff_recently_used online eleven_requests "n0")) in H.
    vm_compute in H.
    repeat (destruct H as [H|H]; [discriminate H|]). exact H.
Defined.

(** X11. A name that is no longer among the 10 most recently used is
    fetched again: with a storage client, the next load of it asks the
    store for [<name>.json] and returns what a fresh loader would return
    from the store as it is now. *)
Theorem evicted_name_is_fetched_again self gcs requests ontology_name :
  storage_client self = true ->
  ~ In ontology_name (firstn maxsize (recency (names requests))) ->
  downloads (snd (load self gcs ontology_name (loads self requests initial)))
    = object_of ontology_name :: downloads (loads self requests initial)
  /\ fst (load self gcs ontology_name (loads self requests initial))
     = fst (load self gcs ontology_name initial).
Proof.
  intros C Out. rewrite <- (cache_is_most_recent self requests) in Out.
  apply cache_get_None in Out. unfold load. rewrite Out. cbn [cache initial cache_get].
  pose proof (load_body_result self gcs ontology_name
                (loads self requests initial) initial) as Same.
  split.
  - clear Same. unfold load_body, object_of. rewrite C.
    destruct (load_try self gcs ontology_name) as [[o|]|e];
      [ | | destruct (is_NotFound e)]; reflexivity.
  - destruct (load_body self gcs ontology_name (loads self requests initial))
      as [[o|e] st1];
      destruct (load_body self gcs ontology_name initial) as [[o'|e'] st1'];
      cbn [fst] in *; congruence.
Qed.

Lemma evicted_name_is_fetched_again_witness :
  downloads (snd (load online (hipaa_bucket ["n0.json"]) "n0"
                       (loads online eleven_requests initial)))
    = object_of "n0" :: downloads (loads online eleven_requests initial)
  /\ fst (load online (hipaa_bucket ["n0.json"]) "n0"
               (loads online eleven_requests initial))
     = fst (load online (hipaa_bucket ["n0.json"]) "n0" initial).
Proof.
  apply (evicted_name_is_fetched_again online (hipaa_bucket ["n0.json"])
           eleven_requests "n0").
  - reflexivity.
  - intros H. vm_compute in H.
    repeat (destruct H as [H|H]; [discriminate H|]). exact H.
Defined.

(* ------------------------------------------------------------------ *)
(** ** Listing *)








Lemma load_result_of_cache self gcs ontology_name st st' :
  cache st = cache st' ->
  fst (load self gcs ontology_name st) = fst (load self gcs ontology_name st').
Proof.
  intros E. unfold load. rewrite E.
  destruct (cache_get ontology_name (cache st')); [reflexivity|].
  pose proof (load_body_result self gcs ontology_name st st') as B.
  destruct (load_body self gcs ontology_name st) as [[o|e] s1];
    destruct (load_body self gcs ontology_name st') as [[o'|e'] s1'];
    cbn [fst] in *; congruence.
Qed.

(** X13. [list_available] leaves the cache of [load] and the record of
    downloads as they are, whether it succeeds or fails, so a load after it
    returns what it would have returned before it. *)
Theorem list_available_leaves_cache self gcs st gcs' ontology_name :
  cache (snd (list_available self gcs st)) = cache st
  /\ downloads (snd (list_available self gcs st)) = downloads st
  /\ fst (load self gcs' ontology_name (snd (list_available self gcs st)))
     = fst (load self gcs' ontology_name st).
Proof.
  assert (cache (snd (list_available self gcs st)) = cache st
          /\ downloads (snd (list_available self gcs st)) = downloads st) as [Ec Ed].
  { unfold list_available.
    destruct (if storage_client self then _ else _) as [[l|]|e]; split; reflexivity. }
  split; [exact Ec | split; [exact Ed|]].
  now apply load_result_of_cache.
Qed.

(* ================================================================== *)
(** * Further properties of the endpoint *)
(* ================================================================== *)

Section Responses.

Context {World : Type}.
Variable services : Main.Services World.

Ltac walk :=
  match goal with
  | |- context [py_get ?a ?b ?c] => destruct (py_get a b c) eqn:?
  | |- context [truthy ?a] => destruct (truthy a) eqn:?
  | |- context [Main.ontology_loader_load services ?a ?w] =>
      destruct (Main.ontology_loader_load services a w) as [[?|?] ?] eqn:?
  | |- context [Main.llm_parser_parse services ?a ?b ?w] =>
      destruct (Main.llm_parser_parse services a b w) as [[?|?] ?] eqn:?
  | |- context [Main.smt_verifier_verify services ?a ?b ?w] =>
      destruct (Main.smt_verifier_verify services a b w) as [[?|?] ?] eqn:?
  | |- context [Main.build_response services ?a ?b ?c ?d ?p] =>
      destruct (build_response_outcome services a b c d p)
        as [? [[? [-> [? ?]]] | [? ->]]]
  end;
  cbn beta iota delta [Main.env Main.calls fst snd negb].

Ltac enter_try :=
  unfold Main.verify_try, Main.bindM, Main.raise_from, Main.invoke, Main.ret;
  cbn beta iota delta [Main.env Main.calls fst snd negb].

(** X14. Every response has status 200, 204, 400, 405 or 500; it is 204
    exactly for the verb OPTIONS and 405 exactly for a verb other than
    OPTIONS and POST. *)
Theorem verify_status request p :
  In (Main.status (fst (Main.verify services request p))) [200; 204; 400; 405; 500]%Z
  /\ (Main.status (fst (Main.verify services request p)) = 204%Z
      <-> Main.method request = "OPTIONS")
  /\ (Main.status (fst (Main.verify services request p)) = 405%Z
      <-> Main.method request <> "OPTIONS" /\ Main.method request <> "POST").
Proof.
  unfold Main.verify.
  destruct (String.eqb_spec (Main.method request) "OPTIONS") as [O|O].
  - cbn. repeat split; auto; try discriminate; tauto.
  - destruct (String.eqb_spec (Main.method request) "POST") as [P|P]; cbn [negb].
    + assert (In (Main.status
                    (fst (match Main.verify_try services request
                                  (Main.get_cors_headers request) p with
                          | (Ok response, p1) => (response, p1)
                          | (Raise e, p1) =>
                              (Main.error_response e (Main.get_cors_headers request), p1)
                          end)))
                 [200; 400; 500]%Z) as S.
      { enter_try. repeat walk; cbn; try rewrite H; auto. }
      split; [|split].
      * destruct S as [<-|[<-|[<-|[]]]]; repeat ((left; reflexivity) || right).
      * split; [|tauto]. intros E. rewrite E in S.
        destruct S as [S|[S|[S|[]]]]; discriminate S.
      * split; [|tauto]. intros E. rewrite E in S.
        destruct S as [S|[S|[S|[]]]]; discriminate S.
    + cbn. repeat split; auto; try discriminate; tauto.
Qed.

(** X15. The components are reached only by a POST whose body is a
    non-empty JSON object with a truthy [llm_output]: any other request
    leaves the process as it was (no call, no change of the environment). *)
Theorem components_called_only_for_valid_post request p :
  snd (Main.verify services request p) <> p ->
  Main.method request = "POST"
  /\ exists entries llm_output,
       Main.json_body request = Some (PyDict entries)
       /\ entries <> []
       /\ dict_get "llm_output" entries = Some llm_output
       /\ truthy llm_output = true.
Proof.
  unfold Main.verify.
  destruct (String.eqb_spec (Main.method request) "OPTIONS") as [O|O];
    [intros H; now elim H|].
  destruct (String.eqb_spec (Main.method request) "POST") as [P|P]; cbn [negb];
    [|intros H; now elim H].
  unfold Main.verify_try, Main.get_json.
  destruct (Main.json_body request) as [json|]; [|intros H; now elim H].
  destruct (truthy json) eqn:T; cbn [negb]; [|intros H; now elim H].
  destruct json as [| | | | | |entries];
    try (intros H; now elim H).
  unfold Main.bindM at 1, Main.raise_from at 1, py_get at 1.
  unfold Main.bindM at 1, Main.raise_from at 1, py_get at 1.
  destruct (dict_get "llm_output" entries) as [llm_output|] eqn:L;
    [|intros H; now elim H].
  destruct (truthy llm_output) eqn:TL; cbn [negb]; [|intros H; now elim H].
  intros _. split; [exact P|]. exists entries, llm_output.
  repeat split; trivial. intros ->. discriminate T.
Qed.

(** X16. The calls of a request come in the order of the pipeline and pass
    results on: [load] with the ontology name, then the extractor with the
    [llm_output] of the body and the ontology that [load] returned, then the
    solver with the data that the extractor returned and that ontology;
    each is called at most once, and none after one that raised. *)
Theorem calls_follow_pipeline request p :
  exists trace,
    Main.calls (snd (Main.verify services request p)) = Main.calls p ++ trace
    /\ (trace = []
        \/ exists entries llm_output,
             Main.json_body request = Some (PyDict entries)
             /\ dict_get "llm_output" entries = Some llm_output
             /\ pipeline_trace services llm_output (ontology_name_of entries)
                               (Main.env p) trace).
Proof.
  unfold Main.verify.
  destruct (Main.method request =? "OPTIONS");
    [exists []; split; [now rewrite app_nil_r | now left]|].
  destruct (negb (Main.method request =? "POST"));
    [exists []; split; [now rewrite app_nil_r | now left]|].
  unfold Main.verify_try, Main.get_json.
  destruct (Main.json_body request) as [json|];
    [|exists []; split; [now rewrite app_nil_r | now left]].
  destruct (truthy json) eqn:T; cbn [negb];
    [|exists []; split; [now rewrite app_nil_r | now left]].
  destruct json as [| | | | | |entries];
    try (exists []; split; [now rewrite app_nil_r | now left]).
  unfold Main.bindM at 1, Main.raise_from at 1, py_get at 1.
  unfold Main.bindM at 1, Main.raise_from at 1, py_get at 1.
  fold (ontology_name_of entries).
  destruct (dict_get "llm_output" entries) as [llm_output|] eqn:L;
    [|exists []; split; [now rewrite app_nil_r | now left]].
  destruct (truthy llm_output) eqn:TL; cbn [negb];
    [|exists []; split; [now rewrite app_nil_r | now left]].
  unfold Main.bindM, Main.invoke.
  repeat walk; cbn [snd Main.calls]; repeat rewrite <- app_assoc; cbn [app];
    eexists; (split; [reflexivity|]); right; exists entries, llm_output;
    (split; [reflexivity|]); (split; [exact L|]).
  - eapply reached_verifying; eassumption.
  - eapply reached_verifying; eassumption.
  - eapply reached_verifying; eassumption.
  - eapply stopped_extracting; eassumption.
  - eapply stopped_loading; eassumption.
Qed.

Ltac step :=
  match goal with
  | |- context [Main.uuid4 services ?w] => destruct (Main.uuid4 services w) eqn:?
  | |- context [Main.utcnow_isoformat services ?w] =>
      destruct (Main.utcnow_isoformat services w) eqn:?
  | |- context [subscript ?a ?b] => destruct (subscript a b) eqn:?
  | |- context [py_len ?a] => destruct (py_len a) eqn:?
  end;
  cbn beta iota delta [Main.env Main.calls fst snd].




(** X18. A POST whose body parses to a truthy JSON value that is not an
    object (a non-empty array or string, a non-zero number, true) is
    answered 500 with an AttributeError on [get], and reaches no component. *)
Theorem non_object_body_is_500 request p json :
  Main.method request = "POST" ->
  Main.json_body request = Some json ->
  truthy json = true ->
  is_dict json = false ->
  Main.verify services request p
  = (Main.error_response
       (AttributeError ("'" ++ type_name json ++ "' object has no attribute 'get'"))
       (Main.get_cors_headers request),
     p).
Proof.
  intros M B T D. rewrite (verify_post _ _ _ M).
  unfold Main.verify_try, Main.get_json. rewrite B, T. cbn [negb].
  destruct json; try discriminate D; reflexivity.
Qed.

(** X19. The headers of every response are the same four, and the value of
    Access-Control-Allow-Origin is always one of the allow-listed origins:
    an origin outside the list is never echoed. *)
Theorem allow_origin_is_allow_listed request p :
  exists origin,
    In origin Main.ALLOWED_ORIGINS
    /\ Main.headers (fst (Main.verify services request p))
       = [("Content-Type", "application/json");
          ("Access-Control-Allow-Origin", origin);
          ("Access-Control-Allow-Headers", "Content-Type,x-api-key,Authorization");
          ("Access-Control-Allow-Methods", "OPTIONS,POST")].
Proof.
  rewrite verify_headers. unfold Main.get_cors_headers.
  destruct (existsb (String.eqb (Main.headers_get_Origin request ""))
                    Main.ALLOWED_ORIGINS) eqn:E.
  - exists (Main.headers_get_Origin request ""). split; [|reflexivity].
    now apply allow_listed.
  - exists "https://aare.ai". split; [now left | reflexivity].
Qed.


(** X21. Responses are all or nothing: a response whose status is not 200
    carries no result of the pipeline; its body is empty, or a JSON object
    with the one key error, or the 500 body with the keys error and type. *)
Theorem error_responses_carry_no_results request p :
  Main.status (fst (Main.verify services request p)) <> 200%Z ->
  Main.body (fst (Main.verify services request p)) = Main.Literal ""
  \/ (exists msg, Main.body (fst (Main.verify services request p)) = Main.error_body msg)
  \/ (exists e,
        fst (Main.verify services request p)
        = Main.error_response e (Main.get_cors_headers request)).
Proof.
  intros Status.
  destruct (Main.verify services request p) as [response p'] eqn:V.
  cbn [fst] in *. revert response p' V Status.
  unfold Main.verify.
  destruct (Main.method request =? "OPTIONS");
    [intros ? ? V _; injection V as <- <-; now left|].
  destruct (negb (Main.method request =? "POST"));
    [intros ? ? V _; injection V as <- <-; right; left; now eexists|].
  enter_try.
  repeat walk; intros ? ? V S; injection V as <- <-;
    try (elim S; assumption);
    try (right; left; eexists; reflexivity);
    try (right; right; eexists; reflexivity).
Qed.

End Responses.

Lemma verify_status_witness :
  Main.status (fst (Main.verify offline_services
                      (Main.mkRequest "OPTIONS" None None) start)) = 204%Z
  /\ Main.status (fst (Main.verify offline_services
                         (Main.mkRequest "GET" None None) start)) = 405%Z.
Proof.
  split.
  - apply (proj2 (proj1 (proj2 (verify_status offline_services
                                  (Main.mkRequest "OPTIONS" None None) start)))).
    reflexivity.
  - apply (proj2 (proj2 (proj2 (verify_status offline_services
                                  (Main.mkRequest "GET" None None) start)))).
    split; discriminate.
Defined.

Lemma components_called_only_for_valid_post_witness :
  Main.method number_request = "POST"
  /\ exists entries llm_output,
       Main.json_body number_request = Some (PyDict entries)
       /\ entries <> []
       /\ dict_get "llm_output" entries = Some llm_output
       /\ truthy llm_output = true.
Proof.
  apply (components_called_only_for_valid_post offline_services number_request start).
  intros H. discriminate H.
Defined.


Lemma non_object_body_is_500_witness :
  Main.verify offline_services (post (PyList [PyInt 1])) start
  = (Main.error_response (AttributeError "'list' object has no attribute 'get'")
       (Main.get_cors_headers (post (PyList [PyInt 1]))),
     start).
Proof.
  apply (non_object_body_is_500 offline_services (post (PyList [PyInt 1])) start
           (PyList [PyInt 1])); reflexivity.
Defined.


Lemma error_responses_carry_no_results_witness :
  Main.body (fst (Main.verify failing_parser dti_request start)) = Main.Literal ""
  \/ (exists msg,
        Main.body (fst (Main.verify failing_parser dti_request start))
        = Main.error_body msg)
  \/ (exists e,
        fst (Main.verify failing_parser dti_request start)
        = Main.error_response e (Main.get_cors_headers dti_request)).
Proof.
  apply (error_responses_carry_no_results failing_parser dti_request start).
  discriminate.
Defined.
